(** * gnina/training.py: the training and evaluation orchestration

    A shallow embedding of [src/gnina/training.py].  The script sequences
    calls into PyTorch, PyTorch Ignite and molgrid; the tensor substrate is
    kept abstract behind two interfaces ([TensorLib], [Autograd]) and the
    script's own control flow -- the two training steps, the two evaluation
    steps, the engine set-up, the [log_training_results] handler and the
    start-up sequence of [training] -- is written out over an explicit
    state with Python's exceptions as an error result.

    The engines, the metric accumulators, the plateau scheduler and the
    checkpoint handler are the libraries'; what they do is modelled from
    the specification, and each such definition says so.

    Python floats are modelled as exact rationals ([Q]); rounding is not
    modelled. *)

From Stdlib Require Import ZArith QArith Lia.
From stdpp Require Import base strings gmap list pretty.

Local Open Scope string_scope.
Local Open Scope list_scope.

(** ** Exceptions and results *)

Inductive exn :=
| ValueError        (* wrong number of values to unpack, bad argument *)
| TypeError         (* iteration over a 0-d tensor *)
| KeyError          (* missing dictionary key *)
| IndexError        (* list index out of range *)
| RuntimeError      (* backward on a tensor that has no graph *)
| AssertionError.   (* a failed [assert] *)

#[global] Instance exn_eq_dec : EqDecision exn.
Proof. solve_decision. Defined.

Inductive result (A : Type) :=
| Ok (a : A)
| Raise (e : exn).
Arguments Ok {A} a.
Arguments Raise {A} e.


(** ** The tensor substrate *)

Class TensorLib := {
  tensor : Type;
  (* iterating a tensor walks its first dimension; a 0-d tensor cannot be
     iterated *)
  tensor_iter : tensor -> option (list tensor);
  (* [a + b] on tensors *)
  tensor_add : tensor -> tensor -> tensor;
  (* [t.item()] *)
  item : tensor -> Q;
}.

(** Python values that flow through the steps: a tensor, or a tuple of
    tensors (a batch, the output of the dual-task network). *)
Inductive value `{TensorLib} :=
| VTensor (t : tensor)
| VTuple (ts : list tensor).

Class Autograd `{TensorLib} := {
  params : Type;     (* the data of [model.parameters()] *)
  grads : Type;      (* their [.grad] fields *)
  optbuf : Type;     (* the optimizer's momentum buffers *)
  (* [optimizer.zero_grad()] *)
  zero_grad : grads -> grads;
  (* [loss.backward()]: accumulates into the gradients *)
  backward : tensor -> grads -> grads;
  (* [nn.utils.clip_grad_norm_(parameters, max_norm)] *)
  clip_grad_norm_ : grads -> Q -> grads;
  (* [optimizer.step()], given the learning rate of each parameter group *)
  sgd_step : list Q -> optbuf -> params -> grads -> params * optbuf;
  (* the state of one metric accumulator *)
  acc : Type;
}.

(** What the run prints, persists or triggers, in the order it happens. *)
Inductive event :=
| EvModelTrain                              (* model.train() *)
| EvModelEval                               (* model.eval() *)
| EvZeroGrad                                (* optimizer.zero_grad() *)
| EvForward (training grad_enabled : bool)  (* model(grids) *)
| EvLoss                                    (* the loss modules are called *)
| EvBackward                                (* loss.backward() *)
| EvClipGradNorm (max_norm : Q)             (* clip_grad_norm_ *)
| EvClipGradValue (clip_value : Q)          (* clip_grad_value_; never emitted *)
| EvOptimizerStep                           (* optimizer.step() *)
| EvEpochStarted (epoch : nat)
| EvEpochCompleted (epoch : nat)
| EvEvaluatorRun                            (* evaluator.run(loader) *)
| EvLogPrint (title : string) (epoch : nat) (* utils.log_print *)
| EvSchedulerStep (loss : Q)                (* torch_scheduler.step(loss) *)
| EvPrintLR (lr : Q)                        (* print of the learning rate *)
| EvCheckpointSaved (epoch : nat)
| EvCheckpointRemoved (epoch : nat).

Section Training.
Context `{AG : Autograd}.

(** [nn.Module]: the forward function of the network, reading the
    parameters, the [training] flag and the gradient mode. *)
Definition module := params -> bool -> bool -> tensor -> value.

(** A loss module: [loss(prediction, target)]. *)
Definition loss_module := value -> value -> tensor.

(** A metric accumulator attached to the evaluator. *)
Record metric := {
  m_reset : acc;
  m_update : acc -> gmap string value -> acc;
  m_compute : acc -> Q;
}.

(** The plateau detector's memory. *)
Record plateau := {
  p_best : option Q;        (* best monitored value seen; [None] before any *)
  p_num_bad : nat;          (* consecutive checks without improvement *)
}.

(** ** The state of a run *)
Record world := {
  w_params : params;
  w_grads : grads;
  w_training : bool;               (* model.training *)
  w_grad_enabled : bool;           (* torch.is_grad_enabled() *)
  w_lrs : list Q;                  (* optimizer.param_groups[i]['lr'] *)
  w_optbuf : optbuf;
  w_accs : gmap string acc;        (* the attached metrics' accumulators *)
  w_metrics : gmap string Q;       (* evaluator.state.metrics *)
  w_metrics_train : gmap string (list Q);
  w_metrics_test : gmap string (list Q);
  w_sched : plateau;               (* torch_scheduler *)
  w_epoch : nat;                   (* trainer.state.epoch *)
  w_files : list string;           (* the files of args.out_dir *)
  w_saved : list nat;              (* the Checkpoint handler's saved list *)
  w_trace : list event;
}.

(** Field updates, one per field of [world]. *)
Definition set_params (x : params) (w : world) : world :=
  {| w_params := x; w_grads := w_grads w; w_training := w_training w;
     w_grad_enabled := w_grad_enabled w; w_lrs := w_lrs w;
     w_optbuf := w_optbuf w; w_accs := w_accs w; w_metrics := w_metrics w;
     w_metrics_train := w_metrics_train w;
     w_metrics_test := w_metrics_test w; w_sched := w_sched w;
     w_epoch := w_epoch w; w_files := w_files w; w_saved := w_saved w;
     w_trace := w_trace w |}.
Definition set_grads (x : grads) (w : world) : world :=
  {| w_params := w_params w; w_grads := x; w_training := w_training w;
     w_grad_enabled := w_grad_enabled w; w_lrs := w_lrs w;
     w_optbuf := w_optbuf w; w_accs := w_accs w; w_metrics := w_metrics w;
     w_metrics_train := w_metrics_train w;
     w_metrics_test := w_metrics_test w; w_sched := w_sched w;
     w_epoch := w_epoch w; w_files := w_files w; w_saved := w_saved w;
     w_trace := w_trace w |}.
Definition set_training (x : bool) (w : world) : world :=
  {| w_params := w_params w; w_grads := w_grads w; w_training := x;
     w_grad_enabled := w_grad_enabled w; w_lrs := w_lrs w;
     w_optbuf := w_optbuf w; w_accs := w_accs w; w_metrics := w_metrics w;
     w_metrics_train := w_metrics_train w;
     w_metrics_test := w_metrics_test w; w_sched := w_sched w;
     w_epoch := w_epoch w; w_files := w_files w; w_saved := w_saved w;
     w_trace := w_trace w |}.
Definition set_grad_enabled (x : bool) (w : world) : world :=
  {| w_params := w_params w; w_grads := w_grads w;
     w_training := w_training w; w_grad_enabled := x; w_lrs := w_lrs w;
     w_optbuf := w_optbuf w; w_accs := w_accs w; w_metrics := w_metrics w;
     w_metrics_train := w_metrics_train w;
     w_metrics_test := w_metrics_test w; w_sched := w_sched w;
     w_epoch := w_epoch w; w_files := w_files w; w_saved := w_saved w;
     w_trace := w_trace w |}.
Definition set_lrs (x : list Q) (w : world) : world :=
  {| w_params := w_params w; w_grads := w_grads w;
     w_training := w_training w; w_grad_enabled := w_grad_enabled w;
     w_lrs := x; w_optbuf := w_optbuf w; w_accs := w_accs w;
     w_metrics := w_metrics w; w_metrics_train := w_metrics_train w;
     w_metrics_test := w_metrics_test w; w_sched := w_sched w;
     w_epoch := w_epoch w; w_files := w_files w; w_saved := w_saved w;
     w_trace := w_trace w |}.
Definition set_optbuf (x : optbuf) (w : world) : world :=
  {| w_params := w_params w; w_grads := w_grads w;
     w_training := w_training w; w_grad_enabled := w_grad_enabled w;
     w_lrs := w_lrs w; w_optbuf := x; w_accs := w_accs w;
     w_metrics := w_metrics w; w_metrics_train := w_metrics_train w;
     w_metrics_test := w_metrics_test w; w_sched := w_sched w;
     w_epoch := w_epoch w; w_files := w_files w; w_saved := w_saved w;
     w_trace := w_trace w |}.
Definition set_accs (x : gmap string acc) (w : world) : world :=
  {| w_params := w_params w; w_grads := w_grads w;
     w_training := w_training w; w_grad_enabled := w_grad_enabled w;
     w_lrs := w_lrs w; w_optbuf := w_optbuf w; w_accs := x;
     w_metrics := w_metrics w; w_metrics_train := w_metrics_train w;
     w_metrics_test := w_metrics_test w; w_sched := w_sched w;
     w_epoch := w_epoch w; w_files := w_files w; w_saved := w_saved w;
     w_trace := w_trace w |}.
Definition set_metrics (x : gmap string Q) (w : world) : world :=
  {| w_params := w_params w; w_grads := w_grads w;
     w_training := w_training w; w_grad_enabled := w_grad_enabled w;
     w_lrs := w_lrs w; w_optbuf := w_optbuf w; w_accs := w_accs w;
     w_metrics := x; w_metrics_train := w_metrics_train w;
     w_metrics_test := w_metrics_test w; w_sched := w_sched w;
     w_epoch := w_epoch w; w_files := w_files w; w_saved := w_saved w;
     w_trace := w_trace w |}.
Definition set_metrics_train (x : gmap string (list Q)) (w : world) : world :=
  {| w_params := w_params w; w_grads := w_grads w;
     w_training := w_training w; w_grad_enabled := w_grad_enabled w;
     w_lrs := w_lrs w; w_optbuf := w_optbuf w; w_accs := w_accs w;
     w_metrics := w_metrics w; w_metrics_train := x;
     w_metrics_test := w_metrics_test w; w_sched := w_sched w;
     w_epoch := w_epoch w; w_files := w_files w; w_saved := w_saved w;
     w_trace := w_trace w |}.
Definition set_metrics_test (x : gmap string (list Q)) (w : world) : world :=
  {| w_params := w_params w; w_grads := w_grads w;
     w_training := w_training w; w_grad_enabled := w_grad_enabled w;
     w_lrs := w_lrs w; w_optbuf := w_optbuf w; w_accs := w_accs w;
     w_metrics := w_metrics w; w_metrics_train := w_metrics_train w;
     w_metrics_test := x; w_sched := w_sched w; w_epoch := w_epoch w;
     w_files := w_files w; w_saved := w_saved w; w_trace := w_trace w |}.
Definition set_sched (x : plateau) (w : world) : world :=
  {| w_params := w_params w; w_grads := w_grads w;
     w_training := w_training w; w_grad_enabled := w_grad_enabled w;
     w_lrs := w_lrs w; w_optbuf := w_optbuf w; w_accs := w_accs w;
     w_metrics := w_metrics w; w_metrics_train := w_metrics_train w;
     w_metrics_test := w_metrics_test w; w_sched := x;
     w_epoch := w_epoch w; w_files := w_files w; w_saved := w_saved w;
     w_trace := w_trace w |}.
Definition set_epoch (x : nat) (w : world) : world :=
  {| w_params := w_params w; w_grads := w_grads w;
     w_training := w_training w; w_grad_enabled := w_grad_enabled w;
     w_lrs := w_lrs w; w_optbuf := w_optbuf w; w_accs := w_accs w;
     w_metrics := w_metrics w; w_metrics_train := w_metrics_train w;
     w_metrics_test := w_metrics_test w; w_sched := w_sched w;
     w_epoch := x; w_files := w_files w; w_saved := w_saved w;
     w_trace := w_trace w |}.
Definition set_files (x : list string) (w : world) : world :=
  {| w_params := w_params w; w_grads := w_grads w;
     w_training := w_training w; w_grad_enabled := w_grad_enabled w;
     w_lrs := w_lrs w; w_optbuf := w_optbuf w; w_accs := w_accs w;
     w_metrics := w_metrics w; w_metrics_train := w_metrics_train w;
     w_metrics_test := w_metrics_test w; w_sched := w_sched w;
     w_epoch := w_epoch w; w_files := x; w_saved := w_saved w;
     w_trace := w_trace w |}.
Definition set_saved (x : list nat) (w : world) : world :=
  {| w_params := w_params w; w_grads := w_grads w;
     w_training := w_training w; w_grad_enabled := w_grad_enabled w;
     w_lrs := w_lrs w; w_optbuf := w_optbuf w; w_accs := w_accs w;
     w_metrics := w_metrics w; w_metrics_train := w_metrics_train w;
     w_metrics_test := w_metrics_test w; w_sched := w_sched w;
     w_epoch := w_epoch w; w_files := w_files w; w_saved := x;
     w_trace := w_trace w |}.
Definition set_trace (x : list event) (w : world) : world :=
  {| w_params := w_params w; w_grads := w_grads w;
     w_training := w_training w; w_grad_enabled := w_grad_enabled w;
     w_lrs := w_lrs w; w_optbuf := w_optbuf w; w_accs := w_accs w;
     w_metrics := w_metrics w; w_metrics_train := w_metrics_train w;
     w_metrics_test := w_metrics_test w; w_sched := w_sched w;
     w_epoch := w_epoch w; w_files := w_files w; w_saved := w_saved w;
     w_trace := x |}.

(** ** A state-and-exception monad *)
Definition M (A : Type) : Type := world -> result A * world.

Definition ret {A} (a : A) : M A := fun w => (Ok a, w).
Definition raise {A} (e : exn) : M A := fun w => (Raise e, w).
Definition bind {A B} (m : M A) (k : A -> M B) : M B :=
  fun w => match m w with
           | (Ok a, w') => k a w'
           | (Raise e, w') => (Raise e, w')
           end.
(** [try: m except e: h] *)
Definition try_except {A} (m : M A) (e : exn) (h : M A) : M A :=
  fun w => match m w with
           | (Ok a, w') => (Ok a, w')
           | (Raise e', w') =>
               if decide (e = e') then h w' else (Raise e', w')
           end.

#[local] Instance M_ret : MRet M := @ret.
#[local] Instance M_bind : MBind M := fun A B k m => bind m k.

Definition gets {A} (f : world -> A) : M A := fun w => (Ok (f w), w).
Definition modify (f : world -> world) : M unit := fun w => (Ok tt, f w).
Definition emit (e : event) : M unit :=
  modify (fun w => set_trace (w_trace w ++ [e]) w).

(** ** Calls into the substrate *)

(** [model.train()] and [model.eval()] set the module's mode flag. *)
Definition model_train : M unit :=
  modify (set_training true);; emit EvModelTrain.
Definition model_eval : M unit :=
  modify (set_training false);; emit EvModelEval.

Definition optimizer_zero_grad : M unit :=
  modify (fun w => set_grads (zero_grad (w_grads w)) w);; emit EvZeroGrad.

(** [model(grids)] *)
Definition model_call (model : module) (grids : tensor) : M value :=
  out ← gets (fun w =>
            model (w_params w) (w_training w) (w_grad_enabled w) grids);
  mode ← gets w_training;
  grad ← gets w_grad_enabled;
  emit (EvForward mode grad);;
  mret out.

(** Calling the loss modules yields the loss tensor. *)
Definition compute_loss (loss : tensor) : M tensor :=
  emit EvLoss;; mret loss.

(** [loss.backward()].  A loss computed without gradient tracking has no
    graph to walk back, and [backward] raises RuntimeError; within a step
    the mode at the backward call is the mode of its forward pass. *)
Definition loss_backward (loss : tensor) : M unit :=
  tracking ← gets w_grad_enabled;
  if tracking : bool
  then modify (fun w => set_grads (backward loss (w_grads w)) w);;
       emit EvBackward
  else raise RuntimeError.

(** [nn.utils.clip_grad_norm_(model.parameters(), max_norm)] *)
Definition nn_utils_clip_grad_norm_ (max_norm : Q) : M unit :=
  modify (fun w => set_grads (clip_grad_norm_ (w_grads w) max_norm) w);;
  emit (EvClipGradNorm max_norm).

(** [optimizer.step()] *)
Definition optimizer_step : M unit :=
  modify (fun w =>
    let pb := sgd_step (w_lrs w) (w_optbuf w) (w_params w) (w_grads w) in
    set_optbuf (pb.2) (set_params (pb.1) w));;
  emit EvOptimizerStep.

(** [with torch.no_grad(): body]: gradient tracking is off inside the
    block and put back on the way out, also when the block raises. *)
Definition with_no_grad {A} (body : M A) : M A :=
  fun w =>
    let prev := w_grad_enabled w in
    let '(r, w') := body (set_grad_enabled false w) in
    (r, set_grad_enabled prev w').

(** Iterating a Python value, as tuple unpacking does. *)
Definition elements (v : value) : result (list tensor) :=
  match v with
  | VTuple ts => Ok ts
  | VTensor t =>
      match tensor_iter t with
      | Some ts => Ok ts
      | None => Raise TypeError
      end
  end.

Definition lift {A} (r : result A) : M A := fun w => (r, w).

(** [a, b = v] *)
Definition unpack2 (v : value) : M (tensor * tensor) :=
  ts ← lift (elements v);
  match ts with
  | [a; b] => mret (a, b)
  | _ => raise ValueError
  end.

(** [a, b, c = v] *)
Definition unpack3 (v : value) : M (tensor * tensor * tensor) :=
  ts ← lift (elements v);
  match ts with
  | [a; b; c] => mret (a, b, c)
  | _ => raise ValueError
  end.

(** ** The training steps *)

(** [_train_step_pose(trainer, batch, model, optimizer, pose_loss,
    clip_gradients)].  The optimizer is the one of the [world]. *)
Definition _train_step_pose (batch : value) (model : module)
    (pose_loss : loss_module) (clip_gradients : Q) : M Q :=
  model_train;;
  optimizer_zero_grad;;
  '(grids, labels) ← unpack2 batch;
  pose_log ← model_call model grids;
  loss ← compute_loss (pose_loss pose_log (VTensor labels));
  loss_backward loss;;
  nn_utils_clip_grad_norm_ clip_gradients;;
  optimizer_step;;
  mret (item loss).

(** [_train_step_pose_and_affinity(trainer, batch, model, optimizer,
    pose_loss, affinity_loss, clip_gradients)] *)
Definition _train_step_pose_and_affinity (batch : value) (model : module)
    (pose_loss affinity_loss : loss_module) (clip_gradients : Q) : M Q :=
  model_train;;
  optimizer_zero_grad;;
  '(grids, labels, affinities) ← unpack3 batch;
  out ← model_call model grids;
  '(pose_log, affinities_pred) ← unpack2 out;
  loss ← compute_loss
           (tensor_add (pose_loss (VTensor pose_log) (VTensor labels))
              (affinity_loss (VTensor affinities_pred) (VTensor affinities)));
  loss_backward loss;;
  nn_utils_clip_grad_norm_ clip_gradients;;
  optimizer_step;;
  mret (item loss).

(** [_setup_trainer]: the process function of the trainer engine, chosen
    by [affinity_loss is not None]. *)
Definition _setup_trainer (model : module) (pose_loss : loss_module)
    (affinity_loss : option loss_module) (clip_gradients : Q)
    : value -> M Q :=
  match affinity_loss with
  | Some affinity_loss =>
      fun batch =>
        _train_step_pose_and_affinity batch model pose_loss affinity_loss
          clip_gradients
  | None =>
      fun batch => _train_step_pose batch model pose_loss clip_gradients
  end.

(** ** The evaluation steps *)

(** [_evaluation_step_pose_and_affinity(evaluator, batch, model)] *)
Definition _evaluation_step_pose_and_affinity (batch : value)
    (model : module) : M (gmap string value) :=
  model_eval;;
  '(pose_log, affinities_pred, labels, affinities) ←
    with_no_grad (
      '(grids, labels, affinities) ← unpack3 batch;
      out ← model_call model grids;
      '(pose_log, affinities_pred) ← unpack2 out;
      mret (pose_log, affinities_pred, labels, affinities));
  let output : gmap string value :=
    <["affinities" := VTensor affinities]>
    (<["labels" := VTensor labels]>
    (<["affinities_pred" := VTensor affinities_pred]>
    (<["pose_log" := VTensor pose_log]> ∅))) in
  mret output.

(** [_evaluation_step_pose(evaluator, batch, model)] *)
Definition _evaluation_step_pose (batch : value) (model : module)
    : M (gmap string value) :=
  model_eval;;
  '(pose_log, labels) ←
    with_no_grad (
      '(grids, labels) ← unpack2 batch;
      pose_log ← model_call model grids;
      mret (pose_log, labels));
  let output : gmap string value :=
    <["labels" := VTensor labels]> (<["pose_log" := pose_log]> ∅) in
  mret output.

(** The process function [_setup_evaluator] gives the evaluator engine. *)
Definition evaluation_step (model : module) (affinity : bool)
    : value -> M (gmap string value) :=
  if affinity
  then fun batch => _evaluation_step_pose_and_affinity batch model
  else fun batch => _evaluation_step_pose batch model.

(** ** Loops and dictionaries *)

(** [for x in l: f(x)] *)
Fixpoint for_each {A} (l : list A) (f : A -> M unit) : M unit :=
  match l with
  | [] => mret tt
  | x :: l' => f x;; for_each l' f
  end.

(** [d[k]] *)
Definition dict_get {V} (d : gmap string V) (k : string) : M V :=
  match d !! k with
  | Some v => mret v
  | None => raise KeyError
  end.

(** [assert b] *)
Definition assert (b : bool) : M unit :=
  if b then mret tt else raise AssertionError.

(** [d[k].append(v)] on a [defaultdict(list)] *)
Definition append_to {V} (k : string) (v : V) (d : gmap string (list V))
    : gmap string (list V) :=
  <[k := (default [] (d !! k) ++ [v])%list]> d.

(** ** The evaluator engine *)

Record evaluator_engine := {
  ev_process : value -> M (gmap string value);
  ev_metrics : list (string * metric);     (* in attachment order *)
}.

(** [_setup_evaluator(model, metrics, affinity)] *)
Definition _setup_evaluator (model : module)
    (metrics : list (string * metric)) (affinity : bool)
    : evaluator_engine :=
  {| ev_process := evaluation_step model affinity;
     ev_metrics := metrics |}.

(** Modelled from the spec: [Engine.run] of the evaluator and the
    [Metric.attach] handlers of PyTorch Ignite, which are not part of the
    repository.  One invocation is one pass over the data: the metrics
    mapping and every attached accumulator are reset when the pass
    starts, each batch goes through the evaluation step and its record is
    forwarded to every accumulator, and after the pass the mapping holds
    the final value of every attached metric. *)
Definition evaluator_run (ev : evaluator_engine) (data : list value)
    : M unit :=
  emit EvEvaluatorRun;;
  modify (set_metrics ∅);;
  for_each (ev_metrics ev) (fun '(name, m) =>
    modify (fun w => set_accs (<[name := m_reset m]> (w_accs w)) w));;
  for_each data (fun batch =>
    output ← ev_process ev batch;
    for_each (ev_metrics ev) (fun '(name, m) =>
      modify (fun w =>
        set_accs (alter (fun a => m_update m a output) name (w_accs w)) w)));;
  for_each (ev_metrics ev) (fun '(name, m) =>
    modify (fun w =>
      match w_accs w !! name with
      | Some a => set_metrics (<[name := m_compute m a]> (w_metrics w)) w
      | None => w
      end)).

(** ** The adaptive-rate controller *)

Inductive plateau_mode := ModeMin | ModeMax.

Record plateau_config := {
  pc_mode : plateau_mode;
  pc_factor : Q;
  pc_patience : nat;
  pc_min_lr : Q;
}.

Definition Qltb (a b : Q) : bool :=
  (Qnum a * QDen b <? Qnum b * QDen a)%Z.

(** Python's [max(a, b)]: the first argument unless the second is larger. *)
Definition pymax (a b : Q) : Q := if Qltb a b then b else a.

(** Modelled from the spec: the plateau detector's notion of improvement
    ([ReduceLROnPlateau.is_better] of PyTorch, not part of the
    repository), without the library's relative threshold. *)
Definition is_better (mode : plateau_mode) (a : Q) (best : option Q)
    : bool :=
  match best with
  | None => true
  | Some b =>
      match mode with
      | ModeMin => Qltb a b
      | ModeMax => Qltb b a
      end
  end.

(** Modelled from the spec: the reduction of the learning rate by the
    configured factor, floored at the configured minimum rate. *)
Definition reduce_lr (cfg : plateau_config) (lr : Q) : Q :=
  pymax (lr * pc_factor cfg) (pc_min_lr cfg).

(** Modelled from the spec: one check of the plateau detector
    ([ReduceLROnPlateau.step] of PyTorch, not part of the repository).  A
    check that does not improve on the best value counts as bad; once
    more than [patience] consecutive checks were bad the rate of every
    parameter group is reduced and the count starts again. *)
Definition plateau_step (cfg : plateau_config) (metric : Q)
    (st : plateau * list Q) : plateau * list Q :=
  let '(s, lrs) := st in
  let s1 :=
    if is_better (pc_mode cfg) metric (p_best s)
    then {| p_best := Some metric; p_num_bad := 0 |}
    else {| p_best := p_best s; p_num_bad := S (p_num_bad s) |} in
  if (pc_patience cfg <? p_num_bad s1)%nat
  then ({| p_best := p_best s1; p_num_bad := 0 |}, reduce_lr cfg <$> lrs)
  else (s1, lrs).

(** [torch_scheduler.step(loss)] *)
Definition torch_scheduler_step (cfg : plateau_config) (loss : Q)
    : M unit :=
  emit (EvSchedulerStep loss);;
  modify (fun w =>
    let sl := plateau_step cfg loss (w_sched w, w_lrs w) in
    set_lrs (sl.2) (set_sched (sl.1) w)).

(** ** The command-line arguments the run reads *)
Record args := {
  trainfile : string;
  testfile : option string;
  affinity_pos : option Z;
  out_dir : string;
  model_arch : string;                (* args.model *)
  base_lr : Q;
  iterations : nat;
  lr_dynamic : bool;
  lr_patience : nat;
  lr_reduce : Q;
  lr_min : Q;
  clip_gradients : Q;
  pseudo_huber_affinity_loss : bool;
  delta_affinity_loss : Q;
  scale_affinity_loss : Q;
  penalty_affinity_loss : Q;
  test_every : nat;
  checkpoint_every : nat;
  num_checkpoints : nat;
  roc_auc : bool;
  silent : bool;
}.

(** [outstreams]: the console unless silenced, and the log file. *)
Definition outstreams (a : args) : list string :=
  if silent a then ["training.log"] else ["stdout"; "training.log"].

(** The scheduler [training] builds under [--lr_dynamic]:
    [ReduceLROnPlateau(optimizer, mode="max", factor=args.lr_reduce,
    patience=args.lr_patience, min_lr=args.lr_min)]. *)
Definition torch_scheduler (a : args) : plateau_config :=
  {| pc_mode := ModeMax;
     pc_factor := lr_reduce a;
     pc_patience := lr_patience a;
     pc_min_lr := lr_min a |}.

(** The quantity [log_training_results] feeds to the scheduler:
    [loss = mts["Loss (pose)"]], then [loss += mts["Loss (affinity)"]]
    inside [try: ... except KeyError: pass]. *)
Definition monitored_loss (mts : gmap string Q) : M Q :=
  loss ← dict_get mts "Loss (pose)";
  try_except
    (affinity ← dict_get mts "Loss (affinity)"; mret (loss + affinity)%Q)
    KeyError
    (mret loss).

(** The part of [log_training_results] under [if args.lr_dynamic]. *)
Definition update_lr (a : args) (mts : gmap string Q) : M unit :=
  if lr_dynamic a then
    loss ← monitored_loss mts;
    torch_scheduler_step (torch_scheduler a) loss;;
    lrs ← gets w_lrs;
    assert (length lrs =? 1)%nat;;
    for_each (outstreams a) (fun _ =>
      match lrs with
      | lr :: _ => emit (EvPrintLR lr)
      | [] => raise IndexError
      end)
  else mret tt.

(** [log_training_results(trainer)], the handler of every
    [test_every]-th completed epoch. *)
Definition log_training_results (a : args) (evaluator : evaluator_engine)
    (train_loader : list value) : M unit :=
  evaluator_run evaluator train_loader;;
  epoch ← gets w_epoch;
  for_each (outstreams a) (fun _ =>
    emit (EvLogPrint "Train Results" epoch));;
  mts ← gets w_metrics;
  modify (fun w =>
    set_metrics_train
      (append_to "Epoch" (inject_Z (Z.of_nat epoch)) (w_metrics_train w)) w);;
  for_each (map_to_list mts) (fun '(key, v) =>
    modify (fun w =>
      set_metrics_train (append_to key v (w_metrics_train w)) w));;
  update_lr a mts.

(** [log_test_results(trainer)], registered when a test file is given. *)
Definition log_test_results (a : args) (evaluator : evaluator_engine)
    (test_loader : list value) : M unit :=
  evaluator_run evaluator test_loader;;
  epoch ← gets w_epoch;
  for_each (outstreams a) (fun _ =>
    emit (EvLogPrint "Test Results" epoch));;
  modify (fun w =>
    set_metrics_test
      (append_to "Epoch" (inject_Z (Z.of_nat epoch)) (w_metrics_test w)) w);;
  mts ← gets w_metrics;
  for_each (map_to_list mts) (fun '(key, v) =>
    modify (fun w =>
      set_metrics_test (append_to key v (w_metrics_test w)) w)).

(** ** Checkpoints *)

(** Modelled from the spec: the name of a checkpoint artifact, tagged by
    its epoch number (Ignite writes model and optimizer into one file
    [checkpoint_<epoch>.pt]). *)
Definition checkpoint_name (epoch : nat) : string :=
  ("checkpoint_" +:+ pretty epoch) +:+ ".pt".

(** Modelled from the spec: what counts as a checkpoint artifact of a
    prior run, a file with the extension [.pt]. *)
Definition is_checkpoint (f : string) : bool :=
  bool_decide (String.substring (String.length f - 3) 3 f = ".pt").

Definition write_file (f : string) (files : list string) : list string :=
  if bool_decide (f ∈ files) then files else (files ++ [f])%list.

Definition remove_file (f : string) (files : list string) : list string :=
  List.filter (fun g => negb (String.eqb g f)) files.

(** Modelled from the spec: the construction of Ignite's [Checkpoint]
    handler over a directory (not part of the repository), with the
    precondition the source comments on: the destination must hold no
    checkpoint of a prior run, or the construction fails. *)
Definition Checkpoint (n_saved : nat) : M unit :=
  files ← gets w_files;
  if existsb is_checkpoint files
  then raise ValueError
  else modify (set_saved []).

(** Modelled from the spec: one call of Ignite's [Checkpoint] handler
    (not part of the repository).  It persists the state tagged with the
    current epoch ([global_step_transform] reads [trainer.state.epoch]),
    then evicts the oldest snapshots beyond the retention count. *)
Definition checkpoint_call (n_saved : nat) : M unit :=
  epoch ← gets w_epoch;
  modify (fun w =>
    set_files (write_file (checkpoint_name epoch) (w_files w))
      (set_saved (w_saved w ++ [epoch]) w));;
  emit (EvCheckpointSaved epoch);;
  saved ← gets w_saved;
  let excess := (length saved - n_saved)%nat in
  for_each (take excess saved) (fun old =>
    modify (fun w => set_files (remove_file (checkpoint_name old) (w_files w)) w);;
    emit (EvCheckpointRemoved old));;
  modify (set_saved (drop excess saved)).

(** ** The trainer engine *)

(** Modelled from the spec: the filter [Events.EPOCH_COMPLETED(every=n)]
    of Ignite, which lets a handler fire at every n-th completed epoch. *)
Definition every (n epoch : nat) : bool := (epoch mod n =? 0)%nat.

(** Building the filter: Ignite refuses a cadence that is not positive
    when the handler is registered. *)
Definition event_filter (n : nat) : M unit :=
  if (n =? 0)%nat then raise ValueError else mret tt.

Definition when (b : bool) (m : M unit) : M unit :=
  if b then m else mret tt.

(** The handlers [training] registers on [EPOCH_COMPLETED], in the order
    of their registration. *)
Definition epoch_completed (a : args) (evaluator : evaluator_engine)
    (train_loader : list value) (test_loader : option (list value))
    : M unit :=
  epoch ← gets w_epoch;
  when (every (test_every a) epoch)
    (log_training_results a evaluator train_loader);;
  match test_loader with
  | Some test_loader =>
      when (every (test_every a) epoch)
        (log_test_results a evaluator test_loader)
  | None => mret tt
  end;;
  when (every (checkpoint_every a) epoch)
    (checkpoint_call (num_checkpoints a)).

(** Modelled from the spec: [Engine.run] of the trainer (PyTorch Ignite,
    not part of the repository): for each epoch up to the maximum, the
    epoch starts, every batch goes through the process function, the
    epoch completes and its handlers fire in registration order. *)
Definition trainer_run (process : value -> M Q) (handlers : M unit)
    (train_loader : list value) (max_epochs : nat) : M unit :=
  for_each (seq 1 max_epochs) (fun epoch =>
    modify (set_epoch epoch);;
    emit (EvEpochStarted epoch);;
    for_each train_loader (fun batch => _ ← process batch; mret tt);;
    emit (EvEpochCompleted epoch);;
    handlers).

(** ** The main function *)

(** [GriddedExamplesLoader]: the batches of one pass and the dimensions
    of an example. *)
Record loader := {
  l_batches : list value;
  l_dims : list Z;
}.

(** What [training] takes from the other modules of the package and from
    its libraries. *)
Record env := {
  (* the loader over the examples of a file *)
  GriddedExamplesLoader : string -> loader;
  (* models_dict[(name, affinity)](dims) *)
  models_dict : string -> bool -> list Z -> module;
  (* the parameters after weights_and_biases_init *)
  weights_and_biases_init : string -> bool -> list Z -> params;
  (* fresh gradients and optimizer buffers *)
  no_grads : grads;
  no_optbuf : optbuf;
  (* nn.NLLLoss() *)
  NLLLoss : loss_module;
  (* AffinityLoss(delta, penalty, pseudo_huber, scale) *)
  AffinityLoss : Q -> Q -> bool -> Q -> loss_module;
  (* metrics.setup_metrics(affinity, ..., roc_auc, ...) *)
  setup_metrics : bool -> bool -> list (string * metric);
}.

(** [affinity = True if args.affinity_pos is not None else False] *)
Definition affinity_mode (a : args) : bool :=
  match affinity_pos a with Some _ => true | None => false end.

Definition run_train_loader (a : args) (e : env) : loader :=
  GriddedExamplesLoader e (trainfile a).

Definition run_test_loader (a : args) (e : env) : option loader :=
  GriddedExamplesLoader e <$> testfile a.

(** [models_dict[(args.model, affinity)](train_loader.dims)] *)
Definition run_model (a : args) (e : env) : module :=
  models_dict e (model_arch a) (affinity_mode a)
    (l_dims (run_train_loader a e)).

(** [AffinityLoss(...) if affinity else None] *)
Definition run_affinity_loss (a : args) (e : env) : option loss_module :=
  if affinity_mode a
  then Some (AffinityLoss e (delta_affinity_loss a) (penalty_affinity_loss a)
               (pseudo_huber_affinity_loss a) (scale_affinity_loss a))
  else None.

(** [trainer = _setup_trainer(model, optimizer, pose_loss, affinity_loss,
    clip_gradients)] *)
Definition run_trainer (a : args) (e : env) : value -> M Q :=
  _setup_trainer (run_model a e) (NLLLoss e) (run_affinity_loss a e)
    (clip_gradients a).

(** [evaluator = _setup_evaluator(model, allmetrics, affinity=affinity)] *)
Definition run_evaluator (a : args) (e : env) : evaluator_engine :=
  _setup_evaluator (run_model a e)
    (setup_metrics e (affinity_mode a) (roc_auc a)) (affinity_mode a).

Definition list_Z_eqb (l1 l2 : list Z) : bool := bool_decide (l1 = l2).

(** [training(args)], run on the state [initial_world] gives it.  The
    random seeds, the device, the elapsed-time timer and the progress bar
    do not bear on the state and are left out. *)
Definition training_body (a : args) (e : env) : M unit :=
  (* os.makedirs(out_dir); open(out_dir/training.log, "w") *)
  modify (fun w => set_files (write_file "training.log" (w_files w)) w);;
  for_each (outstreams a) (fun _ =>
    emit (EvLogPrint "--- GNINA TRAINING ---" 0));;
  let train_loader := run_train_loader a e in
  match run_test_loader a e with
  | Some test_loader =>
      assert (list_Z_eqb (l_dims test_loader) (l_dims train_loader))
  | None => mret tt
  end;;
  (* optim.SGD(model.parameters(), lr=args.base_lr, ...): one group *)
  modify (set_lrs [base_lr a]);;
  when (lr_dynamic a)
    (modify (set_sched {| p_best := None; p_num_bad := 0 |}));;
  event_filter (test_every a);;
  when (bool_decide (is_Some (testfile a))) (event_filter (test_every a));;
  Checkpoint (num_checkpoints a);;
  event_filter (checkpoint_every a);;
  trainer_run (run_trainer a e)
    (epoch_completed a (run_evaluator a e) (l_batches train_loader)
       (l_batches <$> run_test_loader a e))
    (l_batches train_loader) (iterations a);;
  modify (fun w => set_files (write_file "metrics_train.csv" (w_files w)) w);;
  when (bool_decide (is_Some (testfile a)))
    (modify (fun w =>
       set_files (write_file "metrics_test.csv" (w_files w)) w)).

(** The state [training] starts from: the freshly initialised model in
    training mode, no metric history, and the files already present in
    the output directory. *)
Definition initial_world (a : args) (e : env) (files : list string)
    : world :=
  {| w_params :=
       weights_and_biases_init e (model_arch a) (affinity_mode a)
         (l_dims (run_train_loader a e));
     w_grads := no_grads e;
     w_training := true;
     w_grad_enabled := true;
     w_lrs := [];
     w_optbuf := no_optbuf e;
     w_accs := ∅;
     w_metrics := ∅;
     w_metrics_train := ∅;
     w_metrics_test := ∅;
     w_sched := {| p_best := None; p_num_bad := 0 |};
     w_epoch := 0;
     w_files := files;
     w_saved := [];
     w_trace := [] |}.

Definition training (a : args) (e : env) (files : list string)
    : result unit * world :=
  training_body a e (initial_world a e files).

End Training.

(** ** Vocabulary of the statements *)


(** The events of inference: switching to evaluation mode, and a forward
    pass in evaluation mode without gradient tracking. *)
Definition inference_event (e : event) : bool :=
  match e with
  | EvModelEval | EvForward false false => true
  | _ => false
  end.

(** [m] keeps the property [P] of the state, whether it returns or raises. *)
Definition preserves `{AG : Autograd} {A} (P : world -> Prop) (m : M A)
    : Prop :=
  forall w, P w -> P (m w).2.

(** [hoare P m Q]: from a state with [P], whenever [m] returns [a] the
    state it leaves satisfies [Q a]. *)
Definition hoare `{AG : Autograd} {A} (P : world -> Prop) (m : M A)
    (Q : A -> world -> Prop) : Prop :=
  forall w, P w -> forall a w', m w = (Ok a, w') -> Q a w'.

(** The epochs up to [n] at which a cadence of [c] epochs fires. *)
Definition cadence_hits (c n : nat) : list nat :=
  List.filter (every c) (seq 1 n).

(** The last [k] elements of a list. *)
Definition last_n {A} (k : nat) (l : list A) : list A :=
  drop (length l - k) l.

(** The checkpoint artifacts among the files of the output directory. *)
Definition checkpoints_of (files : list string) : list string :=
  List.filter is_checkpoint files.

(** What the checkpoint handler maintains after [n] epochs: its saved list
    holds the last [k] cadence hits, and the artifacts on disk are theirs. *)
Definition retention_inv (c k n : nat) (files : list string)
    (saved : list nat) : Prop :=
  saved = last_n k (cadence_hits c n) /\
  checkpoints_of files = checkpoint_name <$> saved.

(** The only events of the start-up sequence: the echo of the arguments. *)
Definition startup_event (e : event) : bool :=
  match e with
  | EvLogPrint _ _ => true
  | _ => false
  end.

(** The record an evaluation step returns, as a function of the model's
    parameters and the batch. *)
Definition evaluation_record `{AG : Autograd} (model : module)
    (affinity : bool) (p : params) (batch : value)
    : result (gmap string value) :=
  if affinity then
    match elements batch with
    | Ok [grids; labels; affinities] =>
        match elements (model p false false grids) with
        | Ok [pose_log; affinities_pred] =>
            Ok (<["affinities" := VTensor affinities]>
                (<["labels" := VTensor labels]>
                (<["affinities_pred" := VTensor affinities_pred]>
                (<["pose_log" := VTensor pose_log]> ∅))))
        | Ok _ => Raise ValueError
        | Raise e => Raise e
        end
    | Ok _ => Raise ValueError
    | Raise e => Raise e
    end
  else
    match elements batch with
    | Ok [grids; labels] =>
        Ok (<["labels" := VTensor labels]>
            (<["pose_log" := model p false false grids]> ∅))
    | Ok _ => Raise ValueError
    | Raise e => Raise e
    end.

(** Two states an evaluation pass cannot tell apart: the same parameters,
    the same metrics mapping, and the same accumulators under the names in
    [S]. *)
Definition eval_agree `{AG : Autograd} (S : string -> Prop) (w1 w2 : world)
    : Prop :=
  w_params w1 = w_params w2 /\
  w_metrics w1 = w_metrics w2 /\
  forall name, S name -> w_accs w1 !! name = w_accs w2 !! name.

(** [m] returns the same result from related states and keeps them
    related. *)
Definition related `{AG : Autograd} {A} (R : world -> world -> Prop)
    (m : M A) : Prop :=
  forall w1 w2, R w1 w2 -> (m w1).1 = (m w2).1 /\ R (m w1).2 (m w2).2.

(** From states related by [Pre], [m] returns the same result and leaves
    the same metrics mapping. *)
Definition same_outcome `{AG : Autograd} {A} (Pre : world -> world -> Prop)
    (m : M A) : Prop :=
  forall w1 w2, Pre w1 w2 ->
    (m w1).1 = (m w2).1 /\ w_metrics (m w1).2 = w_metrics (m w2).2.


(** The plateau detector after a sequence of cadence checks. *)
Definition feed (cfg : plateau_config) (losses : list Q)
    (st : plateau * list Q) : plateau * list Q :=
  foldl (fun st loss => plateau_step cfg loss st) st losses.

(** A monitored sequence in which every value is larger than the one
    before: a loss that gets worse at every check. *)
Fixpoint rising (losses : list Q) : bool :=
  match losses with
  | a :: (b :: _) as rest => Qltb a b && rising rest
  | _ => true
  end.

(** ** A small instance to run the definitions on

    Tensors are integers, a network multiplies its input by its single
    parameter, the gradient accumulates the loss. *)

Section Toy.

#[local] Instance toy_tensors : TensorLib :=
  {| tensor := Z;
     tensor_iter := fun _ => None;
     tensor_add := Z.add;
     item := inject_Z |}.

#[local] Instance toy_autograd : Autograd :=
  {| params := Z;
     grads := Z;
     optbuf := unit;
     zero_grad := fun _ => 0%Z;
     backward := fun loss g => (g + loss)%Z;
     clip_grad_norm_ := fun g max_norm => Z.min g (Qnum max_norm);
     sgd_step := fun lrs buf p g => ((p - g)%Z, buf);
     acc := Z |}.

(** A pose-only network and a dual-task network. *)
Definition toy_pose_net : module :=
  fun p training grad x => VTensor (p * x)%Z.
Definition toy_dual_net : module :=
  fun p training grad x => VTuple [(p * x)%Z; (p + x)%Z].

(** Absolute error as the loss of both tasks. *)
Definition toy_loss : loss_module :=
  fun pred target =>
    match pred, target with
    | VTensor a, VTensor b => Z.abs (a - b)
    | _, _ => 0%Z
    end.

(** A metric that sums the [pose_log] field of the records it sees. *)
Definition toy_metric (field : string) : metric :=
  {| m_reset := 0%Z;
     m_update := fun a output =>
       match output !! field with
       | Some (VTensor t) => (a + t)%Z
       | _ => a
       end;
     m_compute := inject_Z |}.

Definition toy_env : env :=
  {| GriddedExamplesLoader := fun file =>
       if String.eqb file "pose.types"
       then {| l_batches := [VTuple [2; 1]; VTuple [3; 0]]%Z; l_dims := [4]%Z |}
       else {| l_batches := [VTuple [2; 1; 5]; VTuple [3; 0; 7]]%Z;
               l_dims := [4]%Z |};
     models_dict := fun name affinity dims =>
       if affinity then toy_dual_net else toy_pose_net;
     weights_and_biases_init := fun name affinity dims => 1%Z;
     no_grads := 0%Z;
     no_optbuf := tt;
     NLLLoss := toy_loss;
     AffinityLoss := fun delta penalty pseudo_huber scale => toy_loss;
     setup_metrics := fun affinity roc_auc =>
       if affinity
       then [("Loss (pose)", toy_metric "pose_log");
             ("Loss (affinity)", toy_metric "affinities_pred")]
       else [("Loss (pose)", toy_metric "pose_log")] |}.

Definition toy_args : args :=
  {| trainfile := "pose.types";
     testfile := None;
     affinity_pos := None;
     out_dir := "out";
     model_arch := "default2017";
     base_lr := 1 # 100;
     iterations := 7;
     lr_dynamic := true;
     lr_patience := 1;
     lr_reduce := 1 # 10;
     lr_min := 1 # 100000;
     clip_gradients := 10;
     pseudo_huber_affinity_loss := false;
     delta_affinity_loss := 4;
     scale_affinity_loss := 1;
     penalty_affinity_loss := 1;
     test_every := 1;
     checkpoint_every := 2;
     num_checkpoints := 2;
     roc_auc := true;
     silent := true |}.

Definition toy_world : world :=
  initial_world toy_args toy_env ["training.log"].

(** The same run without the adaptive rate. *)
Definition toy_static_args : args :=
  {| trainfile := "pose.types";
     testfile := None;
     affinity_pos := None;
     out_dir := "out";
     model_arch := "default2017";
     base_lr := 1 # 100;
     iterations := 3;
     lr_dynamic := false;
     lr_patience := 1;
     lr_reduce := 1 # 10;
     lr_min := 1 # 100000;
     clip_gradients := 10;
     pseudo_huber_affinity_loss := false;
     delta_affinity_loss := 4;
     scale_affinity_loss := 1;
     penalty_affinity_loss := 1;
     test_every := 1;
     checkpoint_every := 2;
     num_checkpoints := 2;
     roc_auc := true;
     silent := true |}.

(** A dual-task run: an affinity column is configured. *)
Definition toy_dual_args : args :=
  {| trainfile := "affinity.types";
     testfile := None;
     affinity_pos := Some 1%Z;
     out_dir := "out";
     model_arch := "default2017";
     base_lr := 1 # 100;
     iterations := 2;
     lr_dynamic := true;
     lr_patience := 1;
     lr_reduce := 1 # 10;
     lr_min := 1 # 100000;
     clip_gradients := 10;
     pseudo_huber_affinity_loss := false;
     delta_affinity_loss := 4;
     scale_affinity_loss := 1;
     penalty_affinity_loss := 1;
     test_every := 1;
     checkpoint_every := 1;
     num_checkpoints := 1;
     roc_auc := true;
     silent := false |}.

Definition toy_dual_world : world :=
  initial_world toy_dual_args toy_env [].

(** An optimizer with two parameter groups, which [training] never builds. *)
Definition toy_two_groups : world :=
  set_lrs [1 # 100; 1 # 50] toy_world.

(** A dual-task batch: grids, pose label, affinity. *)
Definition toy_dual_batch : value := VTuple [2; 1; 5]%Z.

(** The record of the dual-task evaluation step on the batch (2, 1, 5). *)
Definition toy_record : gmap string value :=
  <["affinities" := VTensor 5%Z]>
  (<["labels" := VTensor 1%Z]>
  (<["affinities_pred" := VTensor 3%Z]>
  (<["pose_log" := VTensor 2%Z]> ∅))).

(** A metrics mapping without an affinity loss. *)
Definition toy_pose_metrics : gmap string Q := {["Loss (pose)" := 3 # 1]}.

(** A state with stale accumulators and a stale metrics mapping. *)
Definition toy_stale_world : world :=
  set_accs {["Loss (pose)" := 42%Z]}
    (set_metrics {["Stale" := 7 # 1]} toy_world).

End Toy.

(** ** Further vocabulary *)

(** The number of tensors a step of the variant takes from a batch. *)
Definition batch_arity {A} (affinity_loss : option A) : nat :=
  match affinity_loss with Some _ => 3 | None => 2 end.

(** [m] keeps the property [P] of the state whenever it raises. *)
Definition keeps_on_raise `{AG : Autograd} {A} (P : world -> Prop) (m : M A)
    : Prop :=
  forall w, P w -> forall e w', m w = (Raise e, w') -> P w'.


(** The history after the values of one row are appended to their
    columns. *)
Definition append_row (row : list (string * Q))
    (history : gmap string (list Q)) : gmap string (list Q) :=
  foldl (fun h '(key, v) => append_to key v h) history row.


(** The same for the evaluation step, whose forward pass runs in
    evaluation mode without gradient tracking. *)
Definition evaluable_batch `{AG : Autograd} (model : module)
    (affinity : bool) (batch : value) (w : world) : bool :=
  match affinity, elements batch with
  | false, Ok [_; _] => true
  | true, Ok [grids; _; _] =>
      match elements (model (w_params w) false false grids) with
      | Ok [_; _] => true
      | _ => false
      end
  | _, _ => false
  end.


Section ToyMore.
#[local] Existing Instances toy_tensors toy_autograd.

(** A pose-only batch: grids and pose label. *)
Definition toy_pose_batch : value := VTuple [2; 1]%Z.

(** A metrics mapping with the affinity loss and without the pose loss. *)
Definition toy_affinity_metrics : gmap string Q :=
  {["Loss (affinity)" := 2 # 1]}.

(** An optimizer with its single group, as a run builds it. *)
Definition toy_one_group : world := set_lrs [1 # 100] toy_world.

(** A run with a test file, and an environment whose test examples have
    other dimensions than the training examples. *)
Definition toy_test_args : args :=
  {| trainfile := "pose.types";
     testfile := Some "test.types";
     affinity_pos := None;
     out_dir := "out";
     model_arch := "default2017";
     base_lr := 1 # 100;
     iterations := 3;
     lr_dynamic := false;
     lr_patience := 1;
     lr_reduce := 1 # 10;
     lr_min := 1 # 100000;
     clip_gradients := 10;
     pseudo_huber_affinity_loss := false;
     delta_affinity_loss := 4;
     scale_affinity_loss := 1;
     penalty_affinity_loss := 1;
     test_every := 1;
     checkpoint_every := 2;
     num_checkpoints := 2;
     roc_auc := true;
     silent := true |}.

Definition toy_mismatch_env : env :=
  {| GriddedExamplesLoader := fun file =>
       if String.eqb file "test.types"
       then {| l_batches := [VTuple [4; 1]]%Z; l_dims := [5]%Z |}
       else GriddedExamplesLoader toy_env file;
     models_dict := models_dict toy_env;
     weights_and_biases_init := weights_and_biases_init toy_env;
     no_grads := no_grads toy_env;
     no_optbuf := no_optbuf toy_env;
     NLLLoss := NLLLoss toy_env;
     AffinityLoss := AffinityLoss toy_env;
     setup_metrics := setup_metrics toy_env |}.

End ToyMore.

(** * Properties *)

(** ** Cadence hits and file names *)

Lemma every_iff c e : (0 < c)%nat → every c e = true ↔ (e mod c = 0)%nat.
Proof. intros _. unfold every. apply Nat.eqb_eq. Qed.

Lemma cadence_hits_S c n :
  cadence_hits c (S n)
  = cadence_hits c n ++ (if every c (S n) then [S n] else []).
Proof.
  unfold cadence_hits. rewrite seq_S, List.filter_app. cbn.
  destruct (every c (S n)); reflexivity.
Qed.

Lemma cadence_hits_le c n e : e ∈ cadence_hits c n → (1 ≤ e ≤ n)%nat.
Proof.
  unfold cadence_hits. rewrite list_elem_of_In, List.filter_In, List.in_seq. lia.
Qed.

Lemma cadence_hits_NoDup c n : NoDup (cadence_hits c n).
Proof.
  unfold cadence_hits. apply NoDup_ListNoDup, List.NoDup_filter, List.seq_NoDup.
Qed.

Lemma cadence_hits_multiples c n :
  (0 < c)%nat →
  cadence_hits c n = (fun i => i * c)%nat <$> seq 1 (n / c).
Proof.
  intros Hc. induction n as [|n IH].
  - rewrite Nat.Div0.div_0_l. reflexivity.
  - rewrite cadence_hits_S, IH. unfold every.
    destruct (Nat.eqb_spec (S n mod c) 0) as [Hm|Hm].
    + assert (Hd : (S n / c = S (n / c))%nat).
      { pose proof (Nat.div_mod_eq (S n) c). pose proof (Nat.div_mod_eq n c).
        pose proof (Nat.mod_upper_bound n c). nia. }
      rewrite Hd, seq_S, fmap_app. cbn. f_equal. f_equal.
      pose proof (Nat.div_mod_eq (S n) c). nia.
    + assert (Hd : (S n / c = n / c)%nat).
      { pose proof (Nat.div_mod_eq (S n) c). pose proof (Nat.div_mod_eq n c).
        pose proof (Nat.mod_upper_bound n c). pose proof (Nat.mod_upper_bound (S n) c). nia. }
      rewrite Hd, app_nil_r. reflexivity.
Qed.

Lemma last_n_snoc {A} (k : nat) (l : list A) (x : A) :
  last_n k (last_n k l ++ [x]) = last_n k (l ++ [x]).
Proof.
  unfold last_n. rewrite !length_app, length_drop. cbn.
  destruct (decide (length l ≤ k)%nat) as [Hle|Hgt].
  - replace (length l - k)%nat with 0%nat by lia. cbn.
    replace (length l - 0)%nat with (length l) by lia. reflexivity.
  - destruct k as [|k].
    + rewrite !drop_ge by (rewrite ?length_app, ?length_drop; cbn; lia). reflexivity.
    + replace (length l - (length l - S k) + 1 - S k)%nat with 1%nat by lia.
      replace (length l + 1 - S k)%nat with (S (length l - S k)) by lia.
      rewrite !drop_app_le by (rewrite ?length_drop; lia).
      rewrite drop_drop. do 2 f_equal. lia.
Qed.

Lemma last_n_length {A} (k : nat) (l : list A) :
  (k ≤ length l)%nat → length (last_n k l) = k.
Proof. intros Hk. unfold last_n. rewrite length_drop. lia. Qed.

Lemma last_n_seq_map (f : nat → nat) (k n : nat) :
  (k ≤ n)%nat → last_n k (f <$> seq 1 n) = f <$> seq (n - k + 1) k.
Proof.
  intros Hk. unfold last_n. rewrite length_fmap, length_seq.
  rewrite <- fmap_drop. f_equal.
  replace n with ((n - k) + k)%nat at 2 by lia.
  rewrite seq_app, drop_app_length'; [|rewrite length_seq; lia].
  f_equal. lia.
Qed.

Lemma string_app_length (s t : string) :
  String.length (s +:+ t) = (String.length s + String.length t)%nat.
Proof.
  induction s as [|c s IH]; [reflexivity|].
  change (String c s +:+ t) with (String c (s +:+ t)). cbn. f_equal. exact IH.
Qed.

Lemma string_app_inj_r (t s1 s2 : string) : s1 +:+ t = s2 +:+ t → s1 = s2.
Proof.
  revert s2. induction s1 as [|c s1 IH]; intros [|c2 s2] Heq.
  - reflexivity.
  - apply (f_equal String.length) in Heq.
    rewrite !string_app_length in Heq. cbn in Heq. lia.
  - apply (f_equal String.length) in Heq.
    rewrite !string_app_length in Heq. cbn in Heq. lia.
  - change (String c (s1 +:+ t) = String c2 (s2 +:+ t)) in Heq.
    injection Heq as -> Heq. f_equal. apply IH, Heq.
Qed.

Lemma checkpoint_name_inj (e1 e2 : nat) :
  checkpoint_name e1 = checkpoint_name e2 → e1 = e2.
Proof.
  unfold checkpoint_name. intros Heq.
  apply string_app_inj_r in Heq. apply (inj _) in Heq.
  apply (inj pretty) in Heq. exact Heq.
Qed.

Lemma substring_skip (s t : string) (m : nat) :
  String.substring (String.length s) m (s +:+ t) = String.substring 0 m t.
Proof.
  induction s as [|c s IH]; [reflexivity|].
  change (String c s +:+ t) with (String c (s +:+ t)). cbn. exact IH.
Qed.

Lemma is_checkpoint_suffix (s : string) : is_checkpoint (s +:+ ".pt") = true.
Proof.
  unfold is_checkpoint. apply bool_decide_eq_true.
  rewrite string_app_length. cbn [String.length].
  replace (String.length s + 3 - 3)%nat with (String.length s) by lia.
  rewrite substring_skip. reflexivity.
Qed.

Lemma is_checkpoint_name (e : nat) : is_checkpoint (checkpoint_name e) = true.
Proof. apply is_checkpoint_suffix. Qed.

Lemma filter_filter_comm {A} (f g : A → bool) (l : list A) :
  List.filter f (List.filter g l) = List.filter g (List.filter f l).
Proof.
  induction l as [|x l IH]; cbn; [reflexivity|].
  destruct (f x) eqn:Hf, (g x) eqn:Hg; cbn; rewrite ?Hf, ?Hg, IH; reflexivity.
Qed.

Lemma checkpoints_of_remove (f : string) (files : list string) :
  checkpoints_of (remove_file f files) = remove_file f (checkpoints_of files).
Proof. apply filter_filter_comm. Qed.

Lemma remove_file_absent (e : nat) (l : list nat) :
  e ∉ l → remove_file (checkpoint_name e) (checkpoint_name <$> l)
          = checkpoint_name <$> l.
Proof.
  intros He. unfold remove_file. induction l as [|x l IH]; cbn; [reflexivity|].
  destruct (String.eqb_spec (checkpoint_name x) (checkpoint_name e)) as [Heq|Hne].
  - apply checkpoint_name_inj in Heq. subst. exfalso. apply He. left.
  - cbn. f_equal. apply IH. intros Hin. apply He. right. exact Hin.
Qed.

Lemma remove_file_head (e : nat) (l : list nat) :
  e ∉ l → remove_file (checkpoint_name e) (checkpoint_name <$> (e :: l))
          = checkpoint_name <$> l.
Proof.
  intros He. rewrite fmap_cons.
  change (remove_file (checkpoint_name e)
            (checkpoint_name e :: (checkpoint_name <$> l)))
    with (if negb (String.eqb (checkpoint_name e) (checkpoint_name e))
          then checkpoint_name e
               :: remove_file (checkpoint_name e) (checkpoint_name <$> l)
          else remove_file (checkpoint_name e) (checkpoint_name <$> l)).
  rewrite String.eqb_refl. cbn [negb]. apply remove_file_absent, He.
Qed.

Lemma checkpoints_of_write (f : string) (files : list string) :
  f ∉ files → is_checkpoint f = true →
  checkpoints_of (write_file f files) = checkpoints_of files ++ [f].
Proof.
  intros Hf Hc. unfold write_file, checkpoints_of.
  rewrite bool_decide_eq_false_2 by exact Hf.
  rewrite List.filter_app. cbn. rewrite Hc. reflexivity.
Qed.

Lemma checkpoints_of_write_other (f : string) (files : list string) :
  is_checkpoint f = false →
  checkpoints_of (write_file f files) = checkpoints_of files.
Proof.
  intros Hc. unfold write_file, checkpoints_of.
  destruct (bool_decide (f ∈ files)); [reflexivity|].
  rewrite List.filter_app. cbn. rewrite Hc. apply app_nil_r.
Qed.

(** Evicting the oldest snapshots leaves the artifacts of the rest. *)
Lemma evict_oldest (l1 l2 : list nat) (files : list string) :
  NoDup (l1 ++ l2) →
  checkpoints_of files = checkpoint_name <$> (l1 ++ l2) →
  checkpoints_of
    (foldl (fun fs old => remove_file (checkpoint_name old) fs) files l1)
  = checkpoint_name <$> l2.
Proof.
  revert files. induction l1 as [|x l1 IH]; intros files Hnd Hfs; cbn.
  - exact Hfs.
  - cbn in Hnd. apply NoDup_cons in Hnd as [Hx Hnd].
    apply IH; [exact Hnd|].
    rewrite checkpoints_of_remove, Hfs. apply remove_file_head, Hx.
Qed.

Section Properties.
Context `{AG : Autograd}.

Ltac run_m :=
  cbv [_setup_trainer _train_step_pose _train_step_pose_and_affinity
       evaluation_step _evaluation_step_pose _evaluation_step_pose_and_affinity
       with_no_grad unpack2 unpack3 model_train model_eval optimizer_zero_grad
       model_call compute_loss loss_backward nn_utils_clip_grad_norm_
       optimizer_step emit modify gets lift assert dict_get try_except
       mbind M_bind bind mret M_ret ret raise] in *.

Ltac split_elements :=
  repeat match goal with
  | |- context [elements ?v] =>
      destruct (elements v) as [[|? [|? [|? [|? ?]]]]|] eqn:?; cbn
  end.

Ltac split_tracking :=
  repeat match goal with
  | |- context [if w_grad_enabled ?w then _ else _] =>
      destruct (w_grad_enabled w) eqn:?; cbn
  end.

Lemma dual_step_loss
    (model : module) (pose_loss affinity_loss : loss_module) (clip : Q)
    (batch : value) (w w' : world) (r : Q) :
  _setup_trainer model pose_loss (Some affinity_loss) clip batch w = (Ok r, w') →
  ∃ grids labels affinities pose_log affinities_pred,
    elements batch = Ok [grids; labels; affinities] ∧
    elements (model (w_params w) true (w_grad_enabled w) grids)
      = Ok [pose_log; affinities_pred] ∧
    r = item (tensor_add (pose_loss (VTensor pose_log) (VTensor labels))
                (affinity_loss (VTensor affinities_pred) (VTensor affinities))).
Proof.
  run_m. cbn.
  destruct (elements batch) as [[|g [|l [|a [|? ?]]]]|] eqn:Eb; cbn; try discriminate.
  match goal with |- context [elements ?v] =>
    destruct (elements v) as [[|p [|q [|? ?]]]|] eqn:Em end; cbn; try discriminate.
  split_tracking; try discriminate.
  intros [= <- <-]. exists g, l, a, p, q. auto.
Qed.

(** On a well-formed batch, and with gradient tracking on, the dual-task
    step does return that sum. *)
Lemma dual_step_returns
    (model : module) (pose_loss affinity_loss : loss_module) (clip : Q)
    (batch : value) (w : world)
    (grids labels affinities pose_log affinities_pred : tensor) :
  w_grad_enabled w = true →
  elements batch = Ok [grids; labels; affinities] →
  elements (model (w_params w) true (w_grad_enabled w) grids)
    = Ok [pose_log; affinities_pred] →
  (_setup_trainer model pose_loss (Some affinity_loss) clip batch w).1
  = Ok (item (tensor_add (pose_loss (VTensor pose_log) (VTensor labels))
                (affinity_loss (VTensor affinities_pred)
                   (VTensor affinities)))).
Proof.
  intros Hg Eb Em. run_m. cbn. rewrite Eb. cbn. rewrite Em. cbn.
  rewrite Hg. reflexivity.
Qed.

(** C1.  In dual-task mode (an affinity column is configured) the loss a
    training step returns is the pose loss of the batch plus its affinity
    loss, the two computed on the network's outputs for the batch and added
    once, with no further weight; the affinity loss carries its own delta,
    penalty and scale. *)
Theorem dual_task_loss_is_unweighted_sum
    (a : args) (e : env) (column : Z) (batch : value) (w w' : world)
    (r : Q) :
  affinity_pos a = Some column →
  run_trainer a e batch w = (Ok r, w') →
  ∃ grids labels affinities pose_log affinities_pred,
    elements batch = Ok [grids; labels; affinities] ∧
    elements (run_model a e (w_params w) true (w_grad_enabled w) grids)
      = Ok [pose_log; affinities_pred] ∧
    r = item
          (tensor_add
             (NLLLoss e (VTensor pose_log) (VTensor labels))
             (AffinityLoss e (delta_affinity_loss a) (penalty_affinity_loss a)
                (pseudo_huber_affinity_loss a) (scale_affinity_loss a)
                (VTensor affinities_pred) (VTensor affinities))).
Proof.
  intros Hcol Hrun. unfold run_trainer, run_affinity_loss, affinity_mode in Hrun.
  rewrite Hcol in Hrun. exact (dual_step_loss _ _ _ _ _ _ _ _ Hrun).
Qed.


Lemma evaluation_fields_by_flag
    (model : module) (metrics : list (string * metric)) (affinity : bool)
    (batch : value) (w w' : world) (output : gmap string value) :
  ev_process (_setup_evaluator model metrics affinity) batch w
    = (Ok output, w') →
  "pose_log" ∈ dom output ∧ "labels" ∈ dom output ∧
  ("affinities_pred" ∈ dom output ↔ affinity = true) ∧
  ("affinities" ∈ dom output ↔ affinity = true) ∧
  (affinity = true →
   dom output = {["pose_log"; "affinities_pred"; "labels"; "affinities"]}) ∧
  (affinity = false → dom output = {["pose_log"; "labels"]}).
Proof.
  unfold _setup_evaluator, ev_process.
  destruct affinity; run_m; cbn; split_elements; try discriminate;
    intros [= <- <-]; rewrite !dom_insert_L, dom_empty_L.
  all: repeat split; intros; try discriminate; try set_solver.
Qed.

(** C3.  The record an evaluation step of the run returns holds [pose_log]
    and [labels]; it holds [affinities_pred] and [affinities] exactly when
    an affinity column is configured, and then its fields are exactly
    those four.  The step of either variant does return a record: it
    returns exactly on the batches it can take apart, a pair without an
    affinity column and a triple with one. *)
Theorem evaluation_record_fields
    (a : args) (e : env) (batch : value) (w : world) :
  (∀ output w',
     ev_process (run_evaluator a e) batch w = (Ok output, w') →
     "pose_log" ∈ dom output ∧ "labels" ∈ dom output ∧
     ("affinities_pred" ∈ dom output ↔ is_Some (affinity_pos a)) ∧
     ("affinities" ∈ dom output ↔ is_Some (affinity_pos a)) ∧
     (is_Some (affinity_pos a) →
      dom output = {["pose_log"; "affinities_pred"; "labels"; "affinities"]}) ∧
     (affinity_pos a = None → dom output = {["pose_log"; "labels"]})) ∧
  ((∃ output w', ev_process (run_evaluator a e) batch w = (Ok output, w')) ↔
   evaluable_batch (run_model a e) (affinity_mode a) batch w = true).
Proof.
  split.
  - intros output w' Hrun. unfold run_evaluator in Hrun.
    destruct (evaluation_fields_by_flag _ _ _ _ _ _ _ Hrun)
      as (H1 & H2 & H3 & H4 & H5 & H6).
    assert (Hmode : affinity_mode a = true ↔ is_Some (affinity_pos a)).
    { unfold affinity_mode. destruct (affinity_pos a); split; intros Hx;
        try reflexivity; try discriminate; eauto.
      destruct Hx as [? Hx]. discriminate. }
    split; [exact H1|]. split; [exact H2|].
    split; [rewrite H3; exact Hmode|]. split; [rewrite H4; exact Hmode|].
    split.
    + intros Hs. apply H5, Hmode, Hs.
    + intros Hn. apply H6. unfold affinity_mode. rewrite Hn. reflexivity.
  - unfold run_evaluator, _setup_evaluator, ev_process, evaluable_batch.
    generalize (run_model a e). intros model.
    destruct (affinity_mode a); run_m; cbn; split_elements.
    all: split;
      [ intros (output & w' & Hrun); try discriminate; reflexivity
      | intros Hb; try discriminate; eexists _, _; reflexivity ].
Qed.

(** C10.  An evaluation step, of either variant and on any batch, leaves
    the parameters, the gradients and the optimizer as they were: it puts
    the model in evaluation mode and every forward pass it makes runs in
    that mode with gradient tracking off, which is put back afterwards.  A
    training step that raises has not written the parameters either: the
    one call that writes them is the optimizer update that ends a
    training step. *)
Theorem evaluation_step_leaves_parameters
    (model : module) (affinity : bool) (batch : value) (w : world) :
  let w' := (evaluation_step model affinity batch w).2 in
  (w_params w' = w_params w ∧
   w_grads w' = w_grads w ∧
   w_optbuf w' = w_optbuf w ∧
   w_lrs w' = w_lrs w ∧
   w_training w' = false ∧
   w_grad_enabled w' = w_grad_enabled w ∧
   ∃ evs, w_trace w' = w_trace w ++ evs ∧ forallb inference_event evs = true)
  ∧
  ∀ pose_loss affinity_loss clip err,
    (_setup_trainer model pose_loss affinity_loss clip batch w).1 = Raise err →
    w_params (_setup_trainer model pose_loss affinity_loss clip batch w).2
    = w_params w.
Proof.
  split.
  - destruct affinity; run_m; cbn; split_elements; rewrite <- ?app_assoc;
      repeat (split; [reflexivity|]); eexists; split; reflexivity.
  - intros pose_loss affinity_loss clip err.
    destruct affinity_loss; run_m; cbn; split_elements; split_tracking;
      try reflexivity; discriminate.
Qed.

Lemma plateau_step_length (cfg : plateau_config) (metric : Q)
    (st : plateau * list Q) :
  length (plateau_step cfg metric st).2 = length st.2.
Proof.
  destruct st as [s lrs]. unfold plateau_step.
  repeat match goal with |- context [if ?b then _ else _] => destruct b end;
    cbn; rewrite ?length_fmap; reflexivity.
Qed.

Local Arguments plateau_step : simpl never.

Lemma monitored_loss_defined (mts : gmap string Q) (pose : Q) (w : world) :
  mts !! "Loss (pose)" = Some pose →
  ∃ loss, monitored_loss mts w = (Ok loss, w).
Proof.
  intros Hpose. unfold monitored_loss. run_m. rewrite Hpose.
  destruct (mts !! "Loss (affinity)"); cbn; [eexists; reflexivity|].
  destruct (decide (KeyError = KeyError)); [eexists; reflexivity|congruence].
Qed.

(** C8.  With the pose loss among the metrics, the quantity computed for
    the plateau detector is the pose loss plus the affinity loss when the
    latter is among the metrics, and the pose loss alone when it is not;
    the adaptive-rate update never ends in a missing-key error, and under
    adaptive-rate mode that quantity is what the scheduler is stepped
    with. *)
Theorem monitored_loss_tolerates_missing_affinity
    (a : args) (mts : gmap string Q) (pose : Q) (w : world) :
  mts !! "Loss (pose)" = Some pose →
  let fed :=
    match mts !! "Loss (affinity)" with
    | Some affinity => (pose + affinity)%Q
    | None => pose
    end in
  monitored_loss mts w = (Ok fed, w) ∧
  (update_lr a mts w).1 ≠ Raise KeyError ∧
  (lr_dynamic a = true →
   ∃ evs, w_trace (update_lr a mts w).2
          = w_trace w ++ EvSchedulerStep fed :: evs).
Proof.
  intros Hpose fed. subst fed.
  assert (Hm : monitored_loss mts w
               = (Ok match mts !! "Loss (affinity)" with
                     | Some affinity => (pose + affinity)%Q
                     | None => pose
                     end, w)).
  { unfold monitored_loss. run_m. rewrite Hpose.
    destruct (mts !! "Loss (affinity)"); cbn; [reflexivity|].
    destruct (decide (KeyError = KeyError)); [reflexivity|congruence]. }
  split; [exact Hm|].
  unfold update_lr. destruct (lr_dynamic a).
  - unfold torch_scheduler_step, outstreams. run_m. rewrite Hm. cbn.
    pose proof (plateau_step_length (torch_scheduler a)
      match mts !! "Loss (affinity)" with
      | Some affinity => (pose + affinity)%Q
      | None => pose
      end (w_sched w, w_lrs w)) as Hlen.
    destruct (plateau_step _ _ _) as [s lrs]. cbn in *.
    destruct (silent a); destruct lrs as [|lr [|lr' lrs]]; cbn;
      repeat progress (run_m; cbn).
    all: (split; [discriminate|]); intros _;
      rewrite <- ?app_assoc; eexists; reflexivity.
  - split; [discriminate|]. discriminate.
Qed.

(** *** Reasoning about what a computation keeps *)

Lemma preserves_ret {A} (P : world → Prop) (a : A) : preserves P (ret a).
Proof. intros w HP. exact HP. Qed.

Lemma preserves_raise {A} (P : world → Prop) (e : exn) :
  preserves P (raise (A:=A) e).
Proof. intros w HP. exact HP. Qed.

Lemma preserves_lift {A} (P : world → Prop) (r : result A) :
  preserves P (lift r).
Proof. intros w HP. exact HP. Qed.

Lemma preserves_gets {A} (P : world → Prop) (f : world → A) :
  preserves P (gets f).
Proof. intros w HP. exact HP. Qed.

Lemma preserves_modify (P : world → Prop) (f : world → world) :
  (∀ w, P w → P (f w)) → preserves P (modify f).
Proof. intros Hf w HP. apply Hf, HP. Qed.

Lemma preserves_bind {A B} (P : world → Prop) (m : M A) (k : A → M B) :
  preserves P m → (∀ a, preserves P (k a)) → preserves P (bind m k).
Proof.
  intros Hm Hk w HP. unfold bind. specialize (Hm w HP).
  destruct (m w) as [[a|e] w1]; cbn in *; [apply Hk, Hm | exact Hm].
Qed.

Lemma preserves_for_each {A} (P : world → Prop) (l : list A)
    (f : A → M unit) :
  (∀ x, x ∈ l → preserves P (f x)) → preserves P (for_each l f).
Proof.
  induction l as [|x l IH]; intros Hf; cbn.
  - apply preserves_ret.
  - apply preserves_bind.
    + apply Hf. left.
    + intros _. apply IH. intros y Hy. apply Hf. right. exact Hy.
Qed.

Lemma preserves_try_except {A} (P : world → Prop) (m h : M A) (e : exn) :
  preserves P m → preserves P h → preserves P (try_except m e h).
Proof.
  intros Hm Hh w HP. unfold try_except. specialize (Hm w HP).
  destruct (m w) as [[a|e'] w1]; cbn in *; [exact Hm|].
  destruct (decide (e = e')); [apply Hh, Hm | exact Hm].
Qed.

Lemma preserves_with_no_grad {A} (P : world → Prop) (m : M A) :
  (∀ b w, P w → P (set_grad_enabled b w)) →
  preserves P m → preserves P (with_no_grad m).
Proof.
  intros Hg Hm w HP. unfold with_no_grad.
  specialize (Hm (set_grad_enabled false w) (Hg _ _ HP)).
  destruct (m (set_grad_enabled false w)) as [r w1]; cbn in *.
  apply Hg, Hm.
Qed.

Lemma preserves_when (P : world → Prop) (b : bool) (m : M unit) :
  preserves P m → preserves P (when b m).
Proof. intros Hm. destruct b; [exact Hm | apply preserves_ret]. Qed.

Ltac pres_step :=
  match goal with
  | |- preserves _ (mbind _ _) => apply preserves_bind; [|intros]
  | |- preserves _ (bind _ _) => apply preserves_bind; [|intros]
  | |- preserves _ (mret _) => apply preserves_ret
  | |- preserves _ (ret _) => apply preserves_ret
  | |- preserves _ (raise _) => apply preserves_raise
  | |- preserves _ (lift _) => apply preserves_lift
  | |- preserves _ (gets _) => apply preserves_gets
  | |- preserves _ (assert _) => unfold assert
  | |- preserves _ (dict_get _ _) => unfold dict_get
  | |- preserves _ (emit _) => unfold emit
  | |- preserves _ (when _ _) => apply preserves_when
  | |- preserves _ (try_except _ _ _) => apply preserves_try_except
  | |- preserves _ (for_each _ _) => apply preserves_for_each; intros
  | |- preserves _ (modify _) =>
      apply preserves_modify; cbn; intros;
      repeat match goal with
        | |- context [match ?x with Some _ => _ | None => _ end] =>
            destruct x; cbn
        end;
      try tauto
  | |- preserves _ (with_no_grad _) =>
      apply preserves_with_no_grad; [cbn; intros; try tauto|]
  | |- preserves _ (match ?x with _ => _ end) => destruct x
  end.

Ltac pres := repeat pres_step.

(** The gradient-free part of the state that a step never touches. *)
Lemma train_step_keeps_run_state (P : world → Prop)
    (model : module) (pose_loss : loss_module)
    (affinity_loss : option loss_module) (clip : Q) (batch : value) :
  (∀ w x, P w → P (set_training x w)) →
  (∀ w x, P w → P (set_grads x w)) →
  (∀ w x, P w → P (set_params x w)) →
  (∀ w x, P w → P (set_optbuf x w)) →
  (∀ w x, P w → P (set_trace x w)) →
  preserves P (_setup_trainer model pose_loss affinity_loss clip batch).
Proof.
  intros H1 H2 H3 H4 H5.
  unfold _setup_trainer, _train_step_pose, _train_step_pose_and_affinity,
    unpack2, unpack3, model_train, optimizer_zero_grad, model_call,
    compute_loss, loss_backward, nn_utils_clip_grad_norm_, optimizer_step.
  destruct affinity_loss; pres; auto.
Qed.

Lemma hoare_bind {A B} (P : world → Prop) (R : A → world → Prop)
    (Q : B → world → Prop) (m : M A) (k : A → M B) :
  hoare P m R → (∀ a, hoare (R a) (k a) Q) → hoare P (bind m k) Q.
Proof.
  intros Hm Hk w HP b w' Hrun. unfold bind in Hrun.
  destruct (m w) as [[a|e] w1] eqn:Em; [|discriminate].
  eapply Hk; [eapply Hm; eauto | exact Hrun].
Qed.

Lemma hoare_consequence {A} (P P' : world → Prop) (Q Q' : A → world → Prop)
    (m : M A) :
  hoare P' m Q' → (∀ w, P w → P' w) → (∀ a w, Q' a w → Q a w) → hoare P m Q.
Proof. intros Hm HP HQ w Hw a w' Hrun. eapply HQ, Hm; eauto. Qed.

Lemma hoare_preserves {A} (P : world → Prop) (m : M A) :
  preserves P m → hoare P m (fun _ => P).
Proof. intros Hm w HP a w' Hrun. specialize (Hm w HP). rewrite Hrun in Hm. exact Hm. Qed.

Lemma hoare_ret {A} (P : world → Prop) (a : A) : hoare P (ret a) (fun _ => P).
Proof. intros w HP b w' Hrun. inversion Hrun; subst. exact HP. Qed.

Lemma hoare_for_each_seq (I : nat → world → Prop) (f : nat → M unit)
    (n s : nat) :
  (∀ k, hoare (I k) (f (S k)) (fun _ => I (S k))) →
  hoare (I s) (for_each (seq (S s) n) f) (fun _ => I (s + n)%nat).
Proof.
  intros Hf. revert s. induction n as [|n IH]; intros s; cbn.
  - replace (s + 0)%nat with s by lia. apply hoare_ret.
  - eapply hoare_bind; [apply Hf|]. intros [].
    replace (s + S n)%nat with (S s + n)%nat by lia. apply IH.
Qed.

Lemma for_each_cons {A} (x : A) (l : list A) (f : A → M unit) :
  for_each (x :: l) f = bind (f x) (fun _ => for_each l f).
Proof. reflexivity. Qed.

(** A loop whose body only rewrites the file list. *)
Lemma for_each_files {A} (f : A → M unit)
    (g : A → list string → list string) (l : list A) (w : world) :
  (∀ x w, ∃ w1, f x w = (Ok tt, w1) ∧ w_files w1 = g x (w_files w) ∧
                w_saved w1 = w_saved w ∧ w_epoch w1 = w_epoch w) →
  ∃ w', for_each l f w = (Ok tt, w') ∧
        w_files w' = foldl (fun fs x => g x fs) (w_files w) l ∧
        w_saved w' = w_saved w ∧ w_epoch w' = w_epoch w.
Proof.
  intros Hf. revert w. induction l as [|x l IH]; intros w.
  - eexists. repeat split; reflexivity.
  - rewrite for_each_cons. unfold bind.
    destruct (Hf x w) as (w1 & -> & Hf1 & Hs1 & He1).
    destruct (IH w1) as (w' & -> & Hf' & Hs' & He').
    exists w'. cbn. rewrite Hf', Hs', He', Hf1, Hs1, He1. repeat split; reflexivity.
Qed.

Lemma checkpoint_call_spec (n_saved : nat) (w : world) :
  ∃ w',
    checkpoint_call n_saved w = (Ok tt, w') ∧
    w_saved w' = last_n n_saved (w_saved w ++ [w_epoch w]) ∧
    w_files w'
    = foldl (fun fs old => remove_file (checkpoint_name old) fs)
        (write_file (checkpoint_name (w_epoch w)) (w_files w))
        (take (length (w_saved w ++ [w_epoch w]) - n_saved)
           (w_saved w ++ [w_epoch w])) ∧
    w_epoch w' = w_epoch w.
Proof.
  unfold checkpoint_call.
  cbv [mbind M_bind bind mret M_ret ret gets]. cbn.
  match goal with |- context [for_each ?l ?f ?w1] =>
    destruct (for_each_files f
                (fun old fs => remove_file (checkpoint_name old) fs) l w1)
      as (w' & -> & Hf & Hs & He)
  end.
  { intros x w0. eexists. split; [reflexivity|]. repeat split; reflexivity. }
  cbn in *. eexists. split; [reflexivity|]. cbn.
  rewrite Hf, He. repeat split; reflexivity.
Qed.

Lemma retention_step (c k n : nat) (w w' : world) :
  retention_inv c k n (w_files w) (w_saved w) →
  w_epoch w = S n →
  every c (S n) = true →
  checkpoint_call k w = (Ok tt, w') →
  retention_inv c k (S n) (w_files w') (w_saved w').
Proof.
  intros [Hsaved Hfiles] Hepoch Hhit Hrun.
  destruct (checkpoint_call_spec k w) as (w1 & Hrun1 & Hs & Hf & _).
  rewrite Hrun in Hrun1. injection Hrun1 as <-.
  rewrite Hepoch in Hs, Hf.
  assert (Hfresh : S n ∉ w_saved w).
  { rewrite Hsaved. intros Hin. unfold last_n in Hin.
    apply subseteq_drop in Hin. apply cadence_hits_le in Hin. lia. }
  assert (Hnd : NoDup (w_saved w ++ [S n])).
  { apply NoDup_app. split; [|split].
    - rewrite Hsaved. unfold last_n.
      exact (sublist_NoDup _ _ (cadence_hits_NoDup c n) (sublist_drop _ _)).
    - intros x Hx Hx'. apply list_elem_of_singleton in Hx'. subst. auto.
    - apply NoDup_singleton. }
  split.
  - rewrite Hs, Hsaved, last_n_snoc, cadence_hits_S, Hhit. reflexivity.
  - rewrite Hf, Hs. unfold last_n.
    apply evict_oldest.
    + rewrite take_drop. exact Hnd.
    + rewrite take_drop, checkpoints_of_write, Hfiles, fmap_app;
        [reflexivity | | apply is_checkpoint_name].
      intros Hin. apply Hfresh.
      assert (Hc : checkpoint_name (S n) ∈ checkpoints_of (w_files w)).
      { unfold checkpoints_of. apply list_elem_of_In, List.filter_In.
        split; [apply list_elem_of_In, Hin | apply is_checkpoint_name]. }
      rewrite Hfiles in Hc. apply list_elem_of_fmap in Hc as (y & Hy & Hin').
      apply checkpoint_name_inj in Hy. subst. exact Hin'.
Qed.

Lemma retention_skip (c k n : nat) (files : list string) (saved : list nat) :
  every c (S n) = false →
  retention_inv c k n files saved → retention_inv c k (S n) files saved.
Proof.
  intros Hhit [Hs Hf]. split; [|exact Hf].
  rewrite cadence_hits_S, Hhit, app_nil_r. exact Hs.
Qed.

Ltac unfold_program :=
  unfold log_training_results, log_test_results, update_lr, monitored_loss,
    torch_scheduler_step, evaluator_run, _setup_evaluator, evaluation_step,
    _evaluation_step_pose, _evaluation_step_pose_and_affinity,
    unpack2, unpack3, model_eval, model_call; cbn [ev_process ev_metrics].

(** The evaluation and logging handlers leave the files, the saved list and
    the epoch counter alone. *)
Lemma log_training_results_keeps_files
    (P : list string → list nat → nat → Prop) (a : args) (model : module)
    (metrics : list (string * metric)) (affinity : bool) (data : list value) :
  preserves (fun w => P (w_files w) (w_saved w) (w_epoch w))
    (log_training_results a (_setup_evaluator model metrics affinity) data).
Proof. unfold_program. destruct affinity; pres. Qed.

Lemma log_test_results_keeps_files
    (P : list string → list nat → nat → Prop) (a : args) (model : module)
    (metrics : list (string * metric)) (affinity : bool) (data : list value) :
  preserves (fun w => P (w_files w) (w_saved w) (w_epoch w))
    (log_test_results a (_setup_evaluator model metrics affinity) data).
Proof. unfold_program. destruct affinity; pres. Qed.


Lemma epoch_completed_retention (a : args) (model : module)
    (metrics : list (string * metric)) (affinity : bool)
    (train : list value) (test : option (list value)) (n : nat) :
  hoare
    (fun w => retention_inv (checkpoint_every a) (num_checkpoints a) n
                (w_files w) (w_saved w) ∧ w_epoch w = S n)
    (epoch_completed a (_setup_evaluator model metrics affinity) train test)
    (fun _ w => retention_inv (checkpoint_every a) (num_checkpoints a) (S n)
                  (w_files w) (w_saved w)).
Proof.
  set (P := fun (fs : list string) (sv : list nat) (ep : nat) =>
              retention_inv (checkpoint_every a) (num_checkpoints a) n fs sv
              ∧ ep = S n).
  intros w HP [] w' Hrun. unfold epoch_completed in Hrun.
  cbv [mbind M_bind bind gets] in Hrun.
  pose proof (preserves_when _ (every (test_every a) (w_epoch w)) _
    (log_training_results_keeps_files P a model metrics affinity train) w HP)
    as H1.
  destruct (when _ (log_training_results _ _ _) w) as [[[]|e] w1];
    [|discriminate].
  cbn in H1.
  assert (H2 : ∃ w2, w' = (when (every (checkpoint_every a) (w_epoch w))
                              (checkpoint_call (num_checkpoints a)) w2).2
                      ∧ (when (every (checkpoint_every a) (w_epoch w))
                              (checkpoint_call (num_checkpoints a)) w2).1
                        = Ok tt
                      ∧ P (w_files w2) (w_saved w2) (w_epoch w2)).
  { destruct test as [test|].
    - pose proof (preserves_when _ (every (test_every a) (w_epoch w)) _
        (log_test_results_keeps_files P a model metrics affinity test) w1 H1)
        as H2.
      destruct (when _ (log_test_results _ _ _) w1) as [[[]|e] w2];
        [|discriminate].
      exists w2. rewrite Hrun. auto.
    - exists w1. cbv [mret M_ret ret] in Hrun. rewrite Hrun. auto. }
  destruct H2 as (w2 & -> & Hok & Hinv & Hep).
  destruct HP as [_ Hw]. rewrite Hw in *.
  destruct (every (checkpoint_every a) (S n)) eqn:Hhit; cbn in *.
  - eapply retention_step; eauto.
    destruct (checkpoint_call (num_checkpoints a) w2) as [r w3]; cbn in *.
    congruence.
  - apply retention_skip; assumption.
Qed.

Lemma hoare_any {A} (P : world → Prop) (m : M A) :
  hoare P m (fun _ _ => True).
Proof. intros w _ a w' _. exact I. Qed.

Lemma trainer_run_retention (a : args) (model : module)
    (pose_loss : loss_module) (affinity_loss : option loss_module)
    (metrics : list (string * metric)) (affinity : bool)
    (train : list value) (test : option (list value)) :
  hoare
    (fun w => retention_inv (checkpoint_every a) (num_checkpoints a) 0
                (w_files w) (w_saved w))
    (trainer_run
       (_setup_trainer model pose_loss affinity_loss (clip_gradients a))
       (epoch_completed a (_setup_evaluator model metrics affinity) train test)
       train (iterations a))
    (fun _ w => retention_inv (checkpoint_every a) (num_checkpoints a)
                  (iterations a) (w_files w) (w_saved w)).
Proof.
  unfold trainer_run.
  apply (hoare_for_each_seq
    (fun n w => retention_inv (checkpoint_every a) (num_checkpoints a) n
                  (w_files w) (w_saved w)) _ (iterations a) 0).
  intros n. cbv [mbind M_bind].
  set (P := fun w => retention_inv (checkpoint_every a) (num_checkpoints a) n
                       (w_files w) (w_saved w) ∧ w_epoch w = S n).
  apply (hoare_bind _ (fun _ => P)).
  { intros w Hinv [] w' Hrun. cbv [modify] in Hrun. injection Hrun as <-.
    split; [exact Hinv|reflexivity]. }
  intros _. apply (hoare_bind _ (fun _ => P)).
  { apply hoare_preserves. subst P. pres. }
  intros _. apply (hoare_bind _ (fun _ => P)).
  { apply hoare_preserves. apply preserves_for_each. intros batch _.
    apply preserves_bind; [|intros; apply preserves_ret].
    apply train_step_keeps_run_state; subst P; cbn; auto. }
  intros _. apply (hoare_bind _ (fun _ => P)).
  { apply hoare_preserves. subst P. pres. }
  intros _. apply epoch_completed_retention.
Qed.

Lemma existsb_checkpoints (files : list string) :
  existsb is_checkpoint files = false → checkpoints_of files = [].
Proof.
  unfold checkpoints_of. induction files as [|f files IH]; cbn; [reflexivity|].
  destruct (is_checkpoint f); cbn; [discriminate|exact IH].
Qed.

Lemma training_retention (a : args) (e : env) :
  hoare (fun _ => True) (training_body a e)
    (fun _ w => retention_inv (checkpoint_every a) (num_checkpoints a)
                  (iterations a) (w_files w) (w_saved w)).
Proof.
  unfold training_body. cbv [mbind M_bind].
  do 7 (eapply hoare_bind; [apply hoare_any|intros ?]).
  apply (hoare_bind _ (fun _ w =>
    retention_inv (checkpoint_every a) (num_checkpoints a) 0
      (w_files w) (w_saved w))).
  { intros w _ [] w' Hrun. unfold Checkpoint in Hrun.
    cbv [mbind M_bind bind gets modify raise] in Hrun.
    destruct (existsb is_checkpoint (w_files w)) eqn:Hex; [discriminate|].
    cbn in Hrun. injection Hrun as <-. split; cbn; [reflexivity|].
    apply existsb_checkpoints, Hex. }
  intros ?. eapply hoare_bind.
  { apply hoare_preserves. unfold event_filter. pres. }
  intros ?. eapply hoare_bind; [apply trainer_run_retention|].
  intros ?. eapply hoare_bind.
  { apply hoare_preserves. apply preserves_modify. intros w [Hs Hf]. cbn.
    split; [exact Hs|]. rewrite checkpoints_of_write_other; [exact Hf|reflexivity]. }
  intros ?. apply hoare_preserves. apply preserves_when, preserves_modify.
  intros w [Hs Hf]. cbn.
  split; [exact Hs|]. rewrite checkpoints_of_write_other; [exact Hf|reflexivity].
Qed.

(** C6.  After a run that completes, with N cadence hits of the checkpoint
    handler and a retention count K < N, the checkpoint artifacts in the
    output directory are exactly those of the last K hits, the epochs
    (N-K+1)c, ..., Nc for a cadence of c epochs: K artifacts. *)
Theorem checkpoint_retention (a : args) (e : env) (files : list string)
    (w' : world) :
  training a e files = (Ok tt, w') →
  let N := (iterations a / checkpoint_every a)%nat in
  let K := num_checkpoints a in
  (K < N)%nat →
  checkpoints_of (w_files w')
  = (fun i => checkpoint_name (i * checkpoint_every a)) <$> seq (N - K + 1) K
  ∧ length (checkpoints_of (w_files w')) = K.
Proof.
  intros Hrun N K HK.
  assert (Hc : (0 < checkpoint_every a)%nat).
  { destruct (checkpoint_every a); [|lia]. subst N. cbn in HK. lia. }
  destruct (training_retention a e _ I _ _ Hrun) as [Hs Hf].
  assert (Heq : checkpoints_of (w_files w')
    = (fun i => checkpoint_name (i * checkpoint_every a)) <$> seq (N - K + 1) K).
  { rewrite Hf, Hs, (cadence_hits_multiples _ _ Hc).
    fold N. rewrite last_n_seq_map by (fold K; lia).
    fold K. rewrite <- list_fmap_compose. reflexivity. }
  split; [exact Heq|]. rewrite Heq, length_fmap, length_seq. reflexivity.
Qed.

Lemma existsb_write_file (p : string → bool) (f : string)
    (files : list string) :
  existsb p files = true → existsb p (write_file f files) = true.
Proof.
  intros Hex. unfold write_file. destruct (bool_decide (f ∈ files)); [exact Hex|].
  rewrite existsb_app, Hex. reflexivity.
Qed.

(** C5.  Started on an output directory that holds a checkpoint artifact,
    the run raises during start-up: no epoch has started, the parameters
    are the initial ones, and nothing but the echo of the arguments was
    logged. *)
Theorem preexisting_checkpoint_fails_at_startup
    (a : args) (e : env) (files : list string) :
  (∃ f, f ∈ files ∧ is_checkpoint f = true) →
  let res := training a e files in
  (∃ err, res.1 = Raise err) ∧
  w_epoch res.2 = 0%nat ∧
  w_saved res.2 = [] ∧
  w_params res.2 = w_params (initial_world a e files) ∧
  forallb startup_event (w_trace res.2) = true.
Proof.
  intros (f & Hin & Hf).
  assert (Hex : existsb is_checkpoint (write_file "training.log" files) = true).
  { apply existsb_write_file, existsb_exists. exists f.
    split; [apply list_elem_of_In, Hin | exact Hf]. }
  unfold training, training_body, run_test_loader, outstreams, Checkpoint,
    event_filter, when.
  destruct (silent a), (testfile a) as [tf|], (lr_dynamic a),
    (test_every a) as [|te]; cbn;
    repeat progress (run_m; cbn);
    try match goal with |- context [list_Z_eqb ?x ?y] =>
      destruct (list_Z_eqb x y) end; cbn; rewrite ?Hex; cbn;
    (split; [eexists; reflexivity|]); repeat split; reflexivity.
Qed.

(** *** Two evaluation passes *)

Lemma related_ret {A} (R : world → world → Prop) (a : A) : related R (ret a).
Proof. intros w1 w2 HR. split; [reflexivity|exact HR]. Qed.

Lemma related_modify (R : world → world → Prop) (f : world → world) :
  (∀ w1 w2, R w1 w2 → R (f w1) (f w2)) → related R (modify f).
Proof. intros Hf w1 w2 HR. split; [reflexivity|apply Hf, HR]. Qed.

Lemma related_bind {A B} (R : world → world → Prop) (m : M A)
    (k : A → M B) :
  related R m → (∀ a, related R (k a)) → related R (bind m k).
Proof.
  intros Hm Hk w1 w2 HR. unfold bind. destruct (Hm w1 w2 HR) as [Hres HR'].
  destruct (m w1) as [[a1|e1] w1'], (m w2) as [[a2|e2] w2']; cbn in *;
    try discriminate.
  - injection Hres as ->. apply Hk, HR'.
  - injection Hres as ->. split; [reflexivity|exact HR'].
Qed.

Lemma related_for_each {A} (R : world → world → Prop) (l : list A)
    (f : A → M unit) :
  (∀ x, x ∈ l → related R (f x)) → related R (for_each l f).
Proof.
  induction l as [|x l IH]; intros Hf.
  - apply related_ret.
  - rewrite for_each_cons. apply related_bind.
    + apply Hf. left.
    + intros _. apply IH. intros y Hy. apply Hf. right. exact Hy.
Qed.

Lemma evaluation_step_result (model : module) (affinity : bool)
    (batch : value) (w : world) :
  (evaluation_step model affinity batch w).1
  = evaluation_record model affinity (w_params w) batch.
Proof.
  unfold evaluation_record.
  destruct affinity; run_m; cbn; split_elements; reflexivity.
Qed.

Lemma evaluation_step_keeps_evaluator (P : world → Prop) (model : module)
    (affinity : bool) (batch : value) :
  (∀ w x, P w → P (set_training x w)) →
  (∀ w x, P w → P (set_grad_enabled x w)) →
  (∀ w x, P w → P (set_trace x w)) →
  preserves P (evaluation_step model affinity batch).
Proof.
  intros H1 H2 H3. unfold_program. destruct affinity; pres; auto.
Qed.

Lemma evaluation_step_frame (model : module) (affinity : bool)
    (batch : value) (w : world) :
  let w' := (evaluation_step model affinity batch w).2 in
  w_params w' = w_params w ∧ w_metrics w' = w_metrics w ∧
  w_accs w' = w_accs w.
Proof.
  destruct affinity; run_m; cbn; split_elements; repeat split; reflexivity.
Qed.

Lemma evaluation_step_related (S : string → Prop) (model : module)
    (affinity : bool) (batch : value) :
  related (eval_agree S) (evaluation_step model affinity batch).
Proof.
  intros w1 w2 (Hp & Hm & Ha). split.
  - rewrite !evaluation_step_result, Hp. reflexivity.
  - destruct (evaluation_step_frame model affinity batch w1) as (E1 & E2 & E3).
    destruct (evaluation_step_frame model affinity batch w2) as (F1 & F2 & F3).
    unfold eval_agree. rewrite E1, E2, E3, F1, F2, F3. auto.
Qed.

(** Resetting the attached accumulators makes two states agree on them. *)
Lemma reset_phase (l : list (string * metric)) (S : string → Prop)
    (w1 w2 : world) :
  eval_agree S w1 w2 →
  let reset := fun '(name, m) =>
    modify (fun w => set_accs (<[name := m_reset m]> (w_accs w)) w) in
  (for_each l reset w1).1 = Ok tt ∧ (for_each l reset w2).1 = Ok tt ∧
  eval_agree (fun x => S x ∨ x ∈ l.*1)
    (for_each l reset w1).2 (for_each l reset w2).2.
Proof.
  revert S w1 w2. induction l as [|[name m] l IH]; intros S w1 w2 HR reset.
  - cbn. repeat split; try apply HR. intros x [Hx|Hx]; [apply HR, Hx|].
    apply elem_of_nil in Hx. contradiction.
  - subst reset. rewrite for_each_cons. cbv [bind modify].
    match goal with |- context [for_each l ?f (set_accs ?a1 w1)] =>
      destruct (IH (fun x => S x ∨ x = name)
                  (set_accs a1 w1)
                  (set_accs (<[name := m_reset m]> (w_accs w2)) w2))
        as (I1 & I2 & I3)
    end.
    { destruct HR as (Hp & Hm & Ha). repeat split; cbn; try assumption.
      intros x [Hx| ->].
      - destruct (decide (name = x)) as [->|Hne].
        + rewrite !lookup_insert_eq. reflexivity.
        + rewrite !lookup_insert_ne by exact Hne. apply Ha, Hx.
      - rewrite !lookup_insert_eq. reflexivity. }
    split; [exact I1|]. split; [exact I2|].
    destruct I3 as (Hp & Hm & Ha). repeat split; try assumption.
    intros x Hx. apply Ha. cbn in Hx. rewrite elem_of_cons in Hx. tauto.
Qed.

Lemma same_outcome_seq {A} (Pre Post : world → world → Prop)
    (m : M unit) (k : M A) :
  (∀ w1 w2, Pre w1 w2 →
     (m w1).1 = Ok tt ∧ (m w2).1 = Ok tt ∧ Post (m w1).2 (m w2).2) →
  same_outcome Post k →
  same_outcome Pre (bind m (fun _ => k)).
Proof.
  intros Hm Hk w1 w2 HP. unfold bind.
  destruct (Hm w1 w2 HP) as (H1 & H2 & H3).
  destruct (m w1) as [r1 u1], (m w2) as [r2 u2]. cbn in *. subst.
  apply Hk, H3.
Qed.

Lemma evaluator_run_same_outcome (model : module)
    (metrics : list (string * metric)) (affinity : bool)
    (data : list value) :
  same_outcome (fun w1 w2 => w_params w1 = w_params w2)
    (evaluator_run (_setup_evaluator model metrics affinity) data).
Proof.
  set (ev := _setup_evaluator model metrics affinity).
  unfold evaluator_run. cbv [mbind M_bind].
  set (S := fun x : string => x ∈ (ev_metrics ev).*1).
  apply (same_outcome_seq _ (fun w1 w2 => w_params w1 = w_params w2)).
  { intros w1 w2 Hp. repeat split. exact Hp. }
  apply (same_outcome_seq _ (eval_agree (fun _ => False))).
  { intros w1 w2 Hp. repeat split; cbn; [exact Hp|contradiction]. }
  apply (same_outcome_seq _ (eval_agree S)).
  { intros w1 w2 HR.
    destruct (reset_phase (ev_metrics ev) _ w1 w2 HR) as (I1 & I2 & I3).
    split; [exact I1|]. split; [exact I2|].
    destruct I3 as (Ep & Em & Ea). repeat split; try assumption.
    intros x Hx. apply Ea. right. exact Hx. }
  enough (Hrest : related (eval_agree S)
            (bind
               (for_each data (fun batch =>
                  bind (ev_process ev batch) (fun output =>
                    for_each (ev_metrics ev) (fun '(name, m) =>
                      modify (fun w =>
                        set_accs
                          (alter (fun a => m_update m a output) name
                             (w_accs w)) w)))))
               (fun _ =>
                  for_each (ev_metrics ev) (fun '(name, m) =>
                    modify (fun w =>
                      match w_accs w !! name with
                      | Some a =>
                          set_metrics (<[name := m_compute m a]> (w_metrics w)) w
                      | None => w
                      end))))).
  { intros w1 w2 HR.
    destruct (Hrest w1 w2 HR) as [Hres (_ & Hm & _)]. split; assumption. }
  apply related_bind.
  - apply related_for_each. intros batch _. apply related_bind.
    + apply evaluation_step_related.
    + intros output. apply related_for_each. intros [name m] Hin.
      apply related_modify. intros v1 v2 (Ep & Em & Ea).
      repeat split; cbn; try assumption.
      intros x Hx. rewrite !lookup_alter.
      destruct (decide (name = x)) as [->|_]; rewrite (Ea x Hx); reflexivity.
  - intros _. apply related_for_each. intros [name m] Hin.
    apply related_modify. intros v1 v2 (Ep & Em & Ea).
    assert (HS : S name).
    { subst S. apply list_elem_of_fmap. exists (name, m). auto. }
    rewrite (Ea name HS). destruct (w_accs v2 !! name); cbn;
      repeat split; cbn; try assumption. rewrite Em. reflexivity.
Qed.

(** An evaluation pass never writes the parameters. *)
Lemma evaluator_run_keeps_parameters (model : module)
    (metrics : list (string * metric)) (affinity : bool) (data : list value)
    (w : world) :
  w_params
    (evaluator_run (_setup_evaluator model metrics affinity) data w).2
  = w_params w.
Proof.
  assert (Hp : preserves (fun w' => w_params w' = w_params w)
                 (evaluator_run (_setup_evaluator model metrics affinity)
                    data)).
  { unfold_program. destruct affinity; pres. }
  apply Hp. reflexivity.
Qed.

(** Two passes in a row return the same result and the same metrics. *)
Lemma consecutive_passes_agree (model : module)
    (metrics : list (string * metric)) (affinity : bool) (data : list value)
    (w : world) :
  let ev := _setup_evaluator model metrics affinity in
  let first := evaluator_run ev data w in
  let second := evaluator_run ev data first.2 in
  second.1 = first.1 ∧ w_metrics second.2 = w_metrics first.2.
Proof.
  intros ev first second.
  destruct (evaluator_run_same_outcome model metrics affinity data
              first.2 w) as [Hr Hm].
  { apply evaluator_run_keeps_parameters. }
  split; assumption.
Qed.

(** C7.  Two evaluation passes over the same data with the same model
    parameters return the same result and leave the same metrics mapping,
    whatever the accumulators and the mapping held before each pass. *)
Theorem evaluation_passes_agree (model : module)
    (metrics : list (string * metric)) (affinity : bool) (data : list value)
    (w1 w2 : world) :
  w_params w1 = w_params w2 →
  let ev := _setup_evaluator model metrics affinity in
  (evaluator_run ev data w1).1 = (evaluator_run ev data w2).1 ∧
  w_metrics (evaluator_run ev data w1).2
  = w_metrics (evaluator_run ev data w2).2.
Proof.
  intros Hp ev.
  exact (evaluator_run_same_outcome model metrics affinity data w1 w2 Hp).
Qed.

(** *** The single-group assertion *)












(** *** A run never trips the assertion *)


























(** *** The plateau detector *)

Lemma Qltb_lt (a b : Q) : Qltb a b = true ↔ (a < b)%Q.
Proof. unfold Qltb, Qlt. apply Z.ltb_lt. Qed.

(** A check that does not improve, with the patience used up, reduces the
    rate of every group and restarts the count. *)
Lemma plateau_reduces_after_patience (cfg : plateau_config) (metric : Q)
    (s : plateau) (lrs : list Q) :
  is_better (pc_mode cfg) metric (p_best s) = false →
  p_num_bad s = pc_patience cfg →
  plateau_step cfg metric (s, lrs)
  = ({| p_best := p_best s; p_num_bad := 0 |}, reduce_lr cfg <$> lrs).
Proof.
  intros Hb Hn. unfold plateau_step. rewrite Hb. cbn [p_num_bad p_best].
  rewrite Hn.
  destruct (Nat.ltb_spec (pc_patience cfg) (S (pc_patience cfg)));
    [reflexivity|lia].
Qed.

(** A check that does not improve, within the patience, only counts. *)
Lemma plateau_waits_within_patience (cfg : plateau_config) (metric : Q)
    (s : plateau) (lrs : list Q) :
  is_better (pc_mode cfg) metric (p_best s) = false →
  (p_num_bad s < pc_patience cfg)%nat →
  plateau_step cfg metric (s, lrs)
  = ({| p_best := p_best s; p_num_bad := S (p_num_bad s) |}, lrs).
Proof.
  intros Hb Hn. unfold plateau_step. rewrite Hb. cbn [p_num_bad p_best].
  destruct (Nat.ltb_spec (pc_patience cfg) (S (p_num_bad s)));
    [lia|reflexivity].
Qed.

(** At the floor a reduction leaves the rate where it is. *)
Lemma reduce_lr_at_floor (cfg : plateau_config) :
  (0 <= pc_min_lr cfg)%Q → (pc_factor cfg <= 1)%Q →
  (reduce_lr cfg (pc_min_lr cfg) == pc_min_lr cfg)%Q.
Proof.
  intros Hm Hf. unfold reduce_lr, pymax.
  destruct (Qltb (pc_min_lr cfg * pc_factor cfg) (pc_min_lr cfg)) eqn:Hlt;
    [reflexivity|].
  apply Qle_antisym.
  - pose proof (Qmult_le_compat_r _ _ _ Hf Hm) as Hle.
    rewrite Qmult_1_l, Qmult_comm in Hle. exact Hle.
  - apply Qnot_lt_le. intros Hlt'. apply Qltb_lt in Hlt'. congruence.
Qed.

Lemma feed_rising (cfg : plateau_config) (losses : list Q) (b : Q)
    (lrs : list Q) :
  pc_mode cfg = ModeMax →
  rising (b :: losses) = true →
  (feed cfg losses ({| p_best := Some b; p_num_bad := 0 |}, lrs)).2 = lrs.
Proof.
  intros Hmode. revert b. induction losses as [|x losses IH]; intros b Hr.
  - reflexivity.
  - cbn [rising] in Hr. apply andb_prop in Hr as [Hbx Hr].
    unfold feed. cbn [foldl]. unfold plateau_step at 2.
    rewrite Hmode. cbn [is_better p_best]. rewrite Hbx. cbn.
    apply IH, Hr.
Qed.

(** C2, the behaviour of the code.  The scheduler [training] builds
    compares in mode "max": a monitored loss that gets worse at every check
    counts as improving, and the learning rates are never reduced. *)
Theorem rising_loss_never_reduces_rate (a : args) (losses : list Q)
    (lrs : list Q) :
  rising losses = true →
  (feed (torch_scheduler a) losses
     ({| p_best := None; p_num_bad := 0 |}, lrs)).2 = lrs.
Proof.
  intros Hr. destruct losses as [|x losses]; [reflexivity|].
  unfold feed. cbn [foldl]. unfold plateau_step at 2. cbn.
  apply (feed_rising (torch_scheduler a)); [reflexivity|exact Hr].
Qed.
(** *** The steps on the pose-only variant and on malformed batches *)

(** X1.  The loss a pose-only training step returns is the pose loss of the
    network's output for the grids of the batch against its labels; the
    batch is a pair. *)
Theorem pose_only_loss
    (model : module) (pose_loss : loss_module) (clip : Q) (batch : value)
    (w w' : world) (r : Q) :
  _setup_trainer model pose_loss None clip batch w = (Ok r, w') →
  ∃ grids labels,
    elements batch = Ok [grids; labels] ∧
    r = item (pose_loss (model (w_params w) true (w_grad_enabled w) grids)
                (VTensor labels)).
Proof.
  run_m. cbn.
  destruct (elements batch) as [[|g [|l [|? ?]]]|] eqn:Eb; cbn;
    try discriminate.
  split_tracking; try discriminate.
  intros [= <- <-]. exists g, l. auto.
Qed.

(** X2.  A training step given a batch with the wrong number of tensors for
    its variant raises ValueError before the forward pass: the model is in
    training mode and the gradients are already zeroed, the parameters and
    the optimizer are as they were. *)
Theorem train_step_wrong_arity
    (model : module) (pose_loss : loss_module)
    (affinity_loss : option loss_module) (clip : Q) (batch : value)
    (ts : list tensor) (w : world) :
  elements batch = Ok ts →
  length ts ≠ batch_arity affinity_loss →
  let res := _setup_trainer model pose_loss affinity_loss clip batch w in
  res.1 = Raise ValueError ∧
  w_trace res.2 = w_trace w ++ [EvModelTrain; EvZeroGrad] ∧
  w_training res.2 = true ∧
  w_grads res.2 = zero_grad (w_grads w) ∧
  w_params res.2 = w_params w ∧
  w_optbuf res.2 = w_optbuf w.
Proof.
  intros Eb Hlen.
  destruct affinity_loss; run_m; cbn; rewrite Eb;
    destruct ts as [|? [|? [|? [|? ?]]]]; cbn in *; try lia;
    rewrite <- ?app_assoc; repeat split; reflexivity.
Qed.

(** X3.  An evaluation step given a batch with the wrong number of tensors
    for its variant raises ValueError without a forward pass; the model is
    left in evaluation mode and gradient tracking is as it was before. *)
Theorem evaluation_step_wrong_arity
    (model : module) (affinity : bool) (batch : value) (ts : list tensor)
    (w : world) :
  elements batch = Ok ts →
  length ts ≠ (if affinity then 3 else 2)%nat →
  let res := evaluation_step model affinity batch w in
  res.1 = Raise ValueError ∧
  w_trace res.2 = w_trace w ++ [EvModelEval] ∧
  w_training res.2 = false ∧
  w_grad_enabled res.2 = w_grad_enabled w.
Proof.
  intros Eb Hlen.
  destruct affinity; run_m; cbn; rewrite Eb;
    destruct ts as [|? [|? [|? [|? ?]]]]; cbn in *; try lia;
    repeat split; reflexivity.
Qed.

(** X4.  Under adaptive-rate mode a metrics mapping without the pose loss
    makes the update of the rate raise KeyError, whether or not the
    affinity loss is there: the scheduler is not stepped and the state is
    untouched. *)
Theorem update_lr_missing_pose_loss (a : args) (mts : gmap string Q)
    (w : world) :
  lr_dynamic a = true →
  mts !! "Loss (pose)" = None →
  update_lr a mts w = (Raise KeyError, w).
Proof.
  intros Hdyn Hpose. unfold update_lr, monitored_loss. rewrite Hdyn.
  run_m. rewrite Hpose. reflexivity.
Qed.

(** *** The history of metrics *)

Lemma hoare_bind_gets {A B} (P : world → Prop) (f : world → A)
    (k : A → M B) (Q : B → world → Prop) :
  (∀ x, hoare (fun w => P w ∧ f w = x) (k x) Q) →
  hoare P (bind (gets f) k) Q.
Proof.
  intros Hk w HP b w' Hrun. unfold bind, gets in Hrun.
  exact (Hk (f w) w (conj HP eq_refl) b w' Hrun).
Qed.

Lemma hoare_weaken_pre {A} (P P' : world → Prop) (m : M A)
    (Q : A → world → Prop) :
  (∀ w, P w → P' w) → hoare P' m Q → hoare P m Q.
Proof. intros HP Hm w Hw a w' Hrun. eapply Hm; eauto. Qed.

Lemma append_row_other (row : list (string * Q))
    (h : gmap string (list Q)) (key : string) :
  key ∉ row.*1 → append_row row h !! key = h !! key.
Proof.
  revert h. induction row as [|[k v] row IH]; intros h Hk; [reflexivity|].
  cbn in Hk. apply not_elem_of_cons in Hk as [Hne Hk].
  unfold append_row. cbn [foldl]. fold (append_row row (append_to k v h)).
  rewrite IH by exact Hk. unfold append_to.
  apply lookup_insert_ne. congruence.
Qed.

Lemma append_row_key (row : list (string * Q))
    (h : gmap string (list Q)) (key : string) (v : Q) :
  NoDup row.*1 → (key, v) ∈ row →
  append_row row h !! key = Some (default [] (h !! key) ++ [v]).
Proof.
  revert h. induction row as [|[k u] row IH]; intros h Hnd Hin.
  - apply elem_of_nil in Hin. contradiction.
  - cbn in Hnd. apply NoDup_cons in Hnd as [Hk Hnd].
    unfold append_row. cbn [foldl]. fold (append_row row (append_to k u h)).
    apply elem_of_cons in Hin as [Heq|Hin].
    + injection Heq as -> ->. rewrite append_row_other by exact Hk.
      unfold append_to. apply lookup_insert_eq.
    + rewrite IH by assumption.
      assert (Hne : k ≠ key).
      { intros ->. apply Hk. apply list_elem_of_fmap. exists (key, v). auto. }
      unfold append_to. rewrite lookup_insert_ne by exact Hne. reflexivity.
Qed.

Lemma for_each_append_train (row : list (string * Q))
    (h : gmap string (list Q)) (mts : gmap string Q) :
  hoare (fun w => w_metrics_train w = h ∧ w_metrics w = mts)
    (for_each row (fun '(key, v) =>
       modify (fun w =>
         set_metrics_train (append_to key v (w_metrics_train w)) w)))
    (fun _ w => w_metrics_train w = append_row row h ∧ w_metrics w = mts).
Proof.
  revert h. induction row as [|[k v] row IH]; intros h.
  - intros w HP [] w' Hrun. cbv [for_each mret M_ret ret] in Hrun.
    injection Hrun as <-. exact HP.
  - rewrite for_each_cons.
    apply (hoare_bind _ (fun _ w =>
             w_metrics_train w = append_to k v h ∧ w_metrics w = mts)).
    + intros w [Hh Hm] [] w' Hrun. cbv [modify] in Hrun.
      injection Hrun as <-. cbn. rewrite Hh. auto.
    + intros _. apply IH.
Qed.

Lemma update_lr_keeps_history
    (P : gmap string (list Q) → gmap string Q → Prop) (a : args)
    (mts : gmap string Q) :
  preserves (fun w => P (w_metrics_train w) (w_metrics w)) (update_lr a mts).
Proof.
  unfold update_lr, monitored_loss, torch_scheduler_step, outstreams.
  destruct (lr_dynamic a), (silent a); pres.
Qed.

Lemma log_training_results_history (a : args) (model : module)
    (metrics : list (string * metric)) (affinity : bool)
    (data : list value) (h : gmap string (list Q)) (epoch : nat) :
  hoare (fun w => w_metrics_train w = h ∧ w_epoch w = epoch)
    (log_training_results a (_setup_evaluator model metrics affinity) data)
    (fun _ w =>
       w_metrics_train w
       = append_row (map_to_list (w_metrics w))
           (append_to "Epoch" (inject_Z (Z.of_nat epoch)) h)).
Proof.
  unfold log_training_results. cbv [mbind M_bind].
  apply (hoare_bind _ (fun _ w => w_metrics_train w = h ∧ w_epoch w = epoch)).
  { apply hoare_preserves. unfold_program. destruct affinity; pres. }
  intros _. apply hoare_bind_gets. intros ep.
  apply (hoare_weaken_pre _ (fun w => w_metrics_train w = h ∧ ep = epoch)).
  { intros w [[Hh He] Hep]. split; congruence. }
  apply (hoare_bind _ (fun _ w => w_metrics_train w = h ∧ ep = epoch)).
  { apply hoare_preserves. unfold outstreams. destruct (silent a); pres. }
  intros _. apply hoare_bind_gets. intros mts.
  apply (hoare_bind _ (fun _ w =>
           w_metrics_train w
           = append_to "Epoch" (inject_Z (Z.of_nat epoch)) h
           ∧ w_metrics w = mts)).
  { intros w [[Hh ->] Hm] [] w' Hrun. cbv [modify] in Hrun.
    injection Hrun as <-. cbn. rewrite Hh. auto. }
  intros _.
  apply (hoare_bind _ (fun _ w =>
           w_metrics_train w
           = append_row (map_to_list mts)
               (append_to "Epoch" (inject_Z (Z.of_nat epoch)) h)
           ∧ w_metrics w = mts)).
  { apply for_each_append_train. }
  intros _.
  eapply hoare_consequence.
  - apply hoare_preserves.
    apply (update_lr_keeps_history
             (fun ht m => ht = append_row (map_to_list mts)
                            (append_to "Epoch" (inject_Z (Z.of_nat epoch)) h)
                          ∧ m = mts)).
  - intros w Hw. exact Hw.
  - intros _ w [Hh Hm]. cbn in *. rewrite Hm. exact Hh.
Qed.

Lemma history_row_lookups (mts : gmap string Q) (h : gmap string (list Q))
    (first : Q) :
  let h' := append_row (map_to_list mts) (append_to "Epoch" first h) in
  (∀ key v, key ≠ "Epoch" → mts !! key = Some v →
     h' !! key = Some (default [] (h !! key) ++ [v])) ∧
  (mts !! "Epoch" = None →
     h' !! "Epoch" = Some (default [] (h !! "Epoch") ++ [first])) ∧
  (∀ key, key ≠ "Epoch" → mts !! key = None → h' !! key = h !! key).
Proof.
  intros h'. subst h'.
  assert (Habsent : ∀ key, mts !! key = None → key ∉ (map_to_list mts).*1).
  { intros key Hnone Hin. apply list_elem_of_fmap in Hin as ([k v] & -> & Hin).
    apply elem_of_map_to_list in Hin. cbn in Hnone. congruence. }
  split; [|split].
  - intros key v Hne Hkey.
    rewrite (append_row_key _ _ key v).
    + unfold append_to. rewrite lookup_insert_ne by congruence. reflexivity.
    + apply NoDup_fst_map_to_list.
    + apply elem_of_map_to_list, Hkey.
  - intros Hnone. rewrite append_row_other by (apply Habsent, Hnone).
    unfold append_to. apply lookup_insert_eq.
  - intros key Hne Hnone. rewrite append_row_other by (apply Habsent, Hnone).
    unfold append_to. apply lookup_insert_ne. congruence.
Qed.

(** X5.  A cadence check on the training set that returns has appended one
    row to the training history: the value of every metric of the pass at
    the end of that metric's column, and the epoch at the end of the
    "Epoch" column; no other column is touched. *)
Theorem training_history_row (a : args) (model : module)
    (metrics : list (string * metric)) (affinity : bool)
    (data : list value) (w w' : world) :
  log_training_results a (_setup_evaluator model metrics affinity) data w
    = (Ok tt, w') →
  (∀ key v, key ≠ "Epoch" → w_metrics w' !! key = Some v →
     w_metrics_train w' !! key
     = Some (default [] (w_metrics_train w !! key) ++ [v])) ∧
  (w_metrics w' !! "Epoch" = None →
     w_metrics_train w' !! "Epoch"
     = Some (default [] (w_metrics_train w !! "Epoch")
             ++ [inject_Z (Z.of_nat (w_epoch w))])) ∧
  (∀ key, key ≠ "Epoch" → w_metrics w' !! key = None →
     w_metrics_train w' !! key = w_metrics_train w !! key).
Proof.
  intros Hrun.
  rewrite (log_training_results_history a model metrics affinity data
             (w_metrics_train w) (w_epoch w) w (conj eq_refl eq_refl) tt w'
             Hrun).
  apply history_row_lookups.
Qed.

Lemma for_each_append_test (row : list (string * Q))
    (h : gmap string (list Q)) (mts : gmap string Q) :
  hoare (fun w => w_metrics_test w = h ∧ w_metrics w = mts)
    (for_each row (fun '(key, v) =>
       modify (fun w =>
         set_metrics_test (append_to key v (w_metrics_test w)) w)))
    (fun _ w => w_metrics_test w = append_row row h ∧ w_metrics w = mts).
Proof.
  revert h. induction row as [|[k v] row IH]; intros h.
  - intros w HP [] w' Hrun. cbv [for_each mret M_ret ret] in Hrun.
    injection Hrun as <-. exact HP.
  - rewrite for_each_cons.
    apply (hoare_bind _ (fun _ w =>
             w_metrics_test w = append_to k v h ∧ w_metrics w = mts)).
    + intros w [Hh Hm] [] w' Hrun. cbv [modify] in Hrun.
      injection Hrun as <-. cbn. rewrite Hh. auto.
    + intros _. apply IH.
Qed.

Lemma log_test_results_history (a : args) (model : module)
    (metrics : list (string * metric)) (affinity : bool)
    (data : list value) (h : gmap string (list Q)) (epoch : nat) :
  hoare (fun w => w_metrics_test w = h ∧ w_epoch w = epoch)
    (log_test_results a (_setup_evaluator model metrics affinity) data)
    (fun _ w =>
       w_metrics_test w
       = append_row (map_to_list (w_metrics w))
           (append_to "Epoch" (inject_Z (Z.of_nat epoch)) h)).
Proof.
  unfold log_test_results. cbv [mbind M_bind].
  apply (hoare_bind _ (fun _ w => w_metrics_test w = h ∧ w_epoch w = epoch)).
  { apply hoare_preserves. unfold_program. destruct affinity; pres. }
  intros _. apply hoare_bind_gets. intros ep.
  apply (hoare_weaken_pre _ (fun w => w_metrics_test w = h ∧ ep = epoch)).
  { intros w [[Hh He] Hep]. split; congruence. }
  apply (hoare_bind _ (fun _ w => w_metrics_test w = h ∧ ep = epoch)).
  { apply hoare_preserves. unfold outstreams. destruct (silent a); pres. }
  intros _.
  apply (hoare_bind _ (fun _ w =>
           w_metrics_test w
           = append_to "Epoch" (inject_Z (Z.of_nat epoch)) h)).
  { intros w [Hh ->] [] w' Hrun. cbv [modify] in Hrun.
    injection Hrun as <-. cbn. rewrite Hh. reflexivity. }
  intros _. apply hoare_bind_gets. intros mts.
  eapply hoare_consequence.
  - apply (for_each_append_test (map_to_list mts)
             (append_to "Epoch" (inject_Z (Z.of_nat epoch)) h) mts).
  - intros w Hw. exact Hw.
  - intros _ w [Hh Hm]. cbn in *. rewrite Hm. exact Hh.
Qed.

(** X6.  A cadence check on the test set that returns has appended one row
    to the test history, in the same way: every metric of the pass to its
    column and the epoch to the "Epoch" column. *)
Theorem test_history_row (a : args) (model : module)
    (metrics : list (string * metric)) (affinity : bool)
    (data : list value) (w w' : world) :
  log_test_results a (_setup_evaluator model metrics affinity) data w
    = (Ok tt, w') →
  (∀ key v, key ≠ "Epoch" → w_metrics w' !! key = Some v →
     w_metrics_test w' !! key
     = Some (default [] (w_metrics_test w !! key) ++ [v])) ∧
  (w_metrics w' !! "Epoch" = None →
     w_metrics_test w' !! "Epoch"
     = Some (default [] (w_metrics_test w !! "Epoch")
             ++ [inject_Z (Z.of_nat (w_epoch w))])) ∧
  (∀ key, key ≠ "Epoch" → w_metrics w' !! key = None →
     w_metrics_test w' !! key = w_metrics_test w !! key).
Proof.
  intros Hrun.
  rewrite (log_test_results_history a model metrics affinity data
             (w_metrics_test w) (w_epoch w) w (conj eq_refl eq_refl) tt w'
             Hrun).
  apply history_row_lookups.
Qed.

(** X7.  A cadence check on the test set never touches what training
    depends on: the learning rates, the scheduler, the parameters, the
    gradients, the optimizer buffers, the training history, the files and
    the checkpoint list are as they were, whether the check returns or
    raises. *)
Theorem test_results_leave_training_state (a : args) (model : module)
    (metrics : list (string * metric)) (affinity : bool)
    (data : list value) (w : world) :
  let w' :=
    (log_test_results a (_setup_evaluator model metrics affinity) data w).2 in
  w_lrs w' = w_lrs w ∧ w_sched w' = w_sched w ∧
  w_params w' = w_params w ∧ w_grads w' = w_grads w ∧
  w_optbuf w' = w_optbuf w ∧
  w_metrics_train w' = w_metrics_train w ∧
  w_files w' = w_files w ∧ w_saved w' = w_saved w ∧
  w_epoch w' = w_epoch w.
Proof.
  assert (Hp : preserves
    (fun w' => w_lrs w' = w_lrs w ∧ w_sched w' = w_sched w ∧
               w_params w' = w_params w ∧ w_grads w' = w_grads w ∧
               w_optbuf w' = w_optbuf w ∧
               w_metrics_train w' = w_metrics_train w ∧
               w_files w' = w_files w ∧ w_saved w' = w_saved w ∧
               w_epoch w' = w_epoch w)
    (log_test_results a (_setup_evaluator model metrics affinity) data)).
  { unfold_program. unfold outstreams. destruct affinity, (silent a); pres. }
  apply Hp. repeat split; reflexivity.
Qed.

(** *** The learning rate outside adaptive-rate mode *)

Lemma log_training_results_static (P : list Q → plateau → Prop) (a : args)
    (model : module) (metrics : list (string * metric)) (affinity : bool)
    (data : list value) :
  lr_dynamic a = false →
  preserves (fun w => P (w_lrs w) (w_sched w))
    (log_training_results a (_setup_evaluator model metrics affinity) data).
Proof.
  intros Hdyn. unfold log_training_results, update_lr. rewrite Hdyn.
  unfold_program. unfold outstreams. destruct affinity, (silent a); pres.
Qed.

Lemma log_test_results_static (P : list Q → plateau → Prop) (a : args)
    (model : module) (metrics : list (string * metric)) (affinity : bool)
    (data : list value) :
  preserves (fun w => P (w_lrs w) (w_sched w))
    (log_test_results a (_setup_evaluator model metrics affinity) data).
Proof.
  unfold_program. unfold outstreams. destruct affinity, (silent a); pres.
Qed.

Lemma trainer_run_static (P : list Q → plateau → Prop) (a : args)
    (model : module) (pose_loss : loss_module)
    (affinity_loss : option loss_module)
    (metrics : list (string * metric)) (affinity : bool)
    (train : list value) (test : option (list value)) :
  lr_dynamic a = false →
  preserves (fun w => P (w_lrs w) (w_sched w))
    (trainer_run
       (_setup_trainer model pose_loss affinity_loss (clip_gradients a))
       (epoch_completed a (_setup_evaluator model metrics affinity) train test)
       train (iterations a)).
Proof.
  intros Hdyn. unfold trainer_run. apply preserves_for_each. intros epoch _.
  cbv [mbind M_bind]. apply preserves_bind; [pres|]. intros _.
  apply preserves_bind; [pres|]. intros _.
  apply preserves_bind.
  { apply preserves_for_each. intros batch _.
    apply preserves_bind; [|intros; apply preserves_ret].
    apply train_step_keeps_run_state; cbn; auto. }
  intros _. apply preserves_bind; [pres|]. intros _.
  unfold epoch_completed. cbv [mbind M_bind].
  apply preserves_bind; [pres|]. intros ep.
  apply preserves_bind.
  { apply preserves_when, log_training_results_static, Hdyn. }
  intros _. apply preserves_bind.
  { destruct test; [|apply preserves_ret].
    apply preserves_when, log_test_results_static. }
  intros _. apply preserves_when. unfold checkpoint_call. pres.
Qed.

(** X8.  Without adaptive-rate mode nothing in a run changes the learning
    rate: a run that completes ends with the single rate it started
    with, the base rate. *)
Theorem static_rate_run (a : args) (e : env) (files : list string)
    (w' : world) :
  lr_dynamic a = false →
  training a e files = (Ok tt, w') →
  w_lrs w' = [base_lr a].
Proof.
  intros Hdyn Hrun.
  assert (Hh : hoare (fun _ => True) (training_body a e)
                 (fun _ w => w_lrs w = [base_lr a])).
  { unfold training_body. cbv [mbind M_bind].
    do 3 (eapply hoare_bind; [apply hoare_any|intros ?]).
    apply (hoare_bind _ (fun _ w => w_lrs w = [base_lr a])).
    { intros w _ [] w1 Hw. cbv [modify] in Hw. injection Hw as <-.
      reflexivity. }
    intros _. apply hoare_preserves.
    apply preserves_bind; [pres|]. intros _.
    apply preserves_bind; [unfold event_filter; pres|]. intros _.
    apply preserves_bind; [unfold event_filter; pres|]. intros _.
    apply preserves_bind; [unfold Checkpoint; pres|]. intros _.
    apply preserves_bind; [unfold event_filter; pres|]. intros _.
    apply preserves_bind.
    { apply (trainer_run_static (fun lrs _ => lrs = [base_lr a])), Hdyn. }
    intros _. pres. }
  exact (Hh _ I _ _ Hrun).
Qed.

(** X9.  Given a test file whose examples do not have the dimensions of the
    training examples, the run raises AssertionError at start-up: no
    optimizer was built and no epoch started; the log file is all it has
    created. *)
Theorem mismatched_dimensions_fail_at_startup (a : args) (e : env)
    (files : list string) (test : string) :
  testfile a = Some test →
  l_dims (GriddedExamplesLoader e test)
    ≠ l_dims (GriddedExamplesLoader e (trainfile a)) →
  let res := training a e files in
  res.1 = Raise AssertionError ∧
  w_lrs res.2 = [] ∧
  w_epoch res.2 = 0%nat ∧
  w_files res.2 = write_file "training.log" files ∧
  forallb startup_event (w_trace res.2) = true.
Proof.
  intros Htest Hdims.
  unfold training, training_body, run_test_loader, run_train_loader,
    outstreams, list_Z_eqb.
  rewrite Htest. cbn [fmap option_fmap option_map].
  rewrite (bool_decide_eq_false_2 _ Hdims).
  destruct (silent a); cbn; repeat progress (run_m; cbn);
    repeat split; reflexivity.
Qed.

(** X10.  Under adaptive-rate mode, with one parameter group and the pose
    loss among the metrics, the update of the rate returns, and what it
    logs after the scheduler step is the rate the step has left, once per
    output stream. *)
Theorem update_lr_prints_new_rate (a : args) (mts : gmap string Q)
    (pose lr : Q) (w : world) :
  lr_dynamic a = true →
  mts !! "Loss (pose)" = Some pose →
  w_lrs w = [lr] →
  ∃ loss lr',
    (update_lr a mts w).1 = Ok tt ∧
    w_lrs (update_lr a mts w).2 = [lr'] ∧
    w_trace (update_lr a mts w).2
    = w_trace w ++ EvSchedulerStep loss
        :: ((fun _ => EvPrintLR lr') <$> outstreams a).
Proof.
  intros Hdyn Hpose Hlr.
  destruct (monitored_loss_defined mts pose w Hpose) as [loss Hm].
  exists loss.
  unfold update_lr. rewrite Hdyn. unfold torch_scheduler_step, outstreams.
  run_m. rewrite Hm. cbn.
  pose proof (plateau_step_length (torch_scheduler a) loss
                (w_sched w, w_lrs w)) as Hlen.
  destruct (plateau_step _ _ _) as [s lrs]. cbn in *. rewrite Hlr in Hlen.
  destruct lrs as [|lr' [|? ?]]; try discriminate. exists lr'.
  destruct (silent a); cbn; repeat progress (run_m; cbn);
    rewrite <- ?app_assoc; repeat split; reflexivity.
Qed.

(** *** The files of the output directory *)

Lemma elem_of_write_file (f g : string) (files : list string) :
  g ∈ write_file f files ↔ g = f ∨ g ∈ files.
Proof.
  unfold write_file. destruct (bool_decide_reflect (f ∈ files)) as [Hin|Hin].
  - split; [auto|]. intros [->|Hg]; assumption.
  - rewrite elem_of_app, list_elem_of_singleton. tauto.
Qed.

Lemma elem_of_remove_file (f g : string) (files : list string) :
  g ∈ remove_file f files ↔ g ≠ f ∧ g ∈ files.
Proof.
  unfold remove_file. rewrite !list_elem_of_In, List.filter_In.
  destruct (String.eqb_spec g f) as [->|Hne]; cbn; intuition congruence.
Qed.

Lemma is_checkpoint_name_ne (f : string) (epoch : nat) :
  is_checkpoint f = false → f ≠ checkpoint_name epoch.
Proof.
  intros Hf ->. rewrite is_checkpoint_name in Hf. discriminate.
Qed.

(** The trainer keeps a property of the file list that writing and
    removing checkpoint artifacts keep. *)
Lemma trainer_run_keeps_file_property (P : list string → Prop) (a : args)
    (model : module) (pose_loss : loss_module)
    (affinity_loss : option loss_module)
    (metrics : list (string * metric)) (affinity : bool)
    (train : list value) (test : option (list value)) :
  (∀ epoch fs, P fs → P (write_file (checkpoint_name epoch) fs)) →
  (∀ epoch fs, P fs → P (remove_file (checkpoint_name epoch) fs)) →
  preserves (fun w => P (w_files w))
    (trainer_run
       (_setup_trainer model pose_loss affinity_loss (clip_gradients a))
       (epoch_completed a (_setup_evaluator model metrics affinity) train test)
       train (iterations a)).
Proof.
  intros Hwrite Hremove.
  unfold trainer_run. apply preserves_for_each. intros epoch _.
  cbv [mbind M_bind]. apply preserves_bind; [pres|]. intros _.
  apply preserves_bind; [pres|]. intros _.
  apply preserves_bind.
  { apply preserves_for_each. intros batch _.
    apply preserves_bind; [|intros; apply preserves_ret].
    apply train_step_keeps_run_state; cbn; auto. }
  intros _. apply preserves_bind; [pres|]. intros _.
  unfold epoch_completed. cbv [mbind M_bind].
  apply preserves_bind; [pres|]. intros ep.
  apply preserves_bind.
  { apply preserves_when.
    apply (log_training_results_keeps_files (fun fs _ _ => P fs)). }
  intros _. apply preserves_bind.
  { destruct test; [|apply preserves_ret].
    apply preserves_when.
    apply (log_test_results_keeps_files (fun fs _ _ => P fs)). }
  intros _. apply preserves_when. unfold checkpoint_call. pres; auto.
Qed.

Lemma keeps_on_raise_bind {A B} (P : world → Prop) (m : M A)
    (k : A → M B) :
  preserves P m → (∀ x, keeps_on_raise P (k x)) →
  keeps_on_raise P (bind m k).
Proof.
  intros Hm Hk w HP e w' Hrun. unfold bind in Hrun. specialize (Hm w HP).
  destruct (m w) as [[x|e1] w1]; cbn in Hm.
  - exact (Hk x w1 Hm e w' Hrun).
  - injection Hrun as _ <-. exact Hm.
Qed.

(** What the run does before it writes its tables keeps a file that is
    neither the log nor a checkpoint artifact out of the directory. *)
Lemma training_keeps_absent_on_raise (f : string) (a : args) (e : env) :
  f ≠ "training.log" → is_checkpoint f = false →
  keeps_on_raise (fun w => f ∉ w_files w) (training_body a e).
Proof.
  intros Hlog Hckpt. unfold training_body. cbv [mbind M_bind].
  apply keeps_on_raise_bind.
  { apply preserves_modify. intros w Hw. cbn. rewrite elem_of_write_file.
    tauto. }
  intros _. apply keeps_on_raise_bind; [pres|]. intros _.
  apply keeps_on_raise_bind; [pres|]. intros _.
  apply keeps_on_raise_bind; [pres|]. intros _.
  apply keeps_on_raise_bind; [pres|]. intros _.
  apply keeps_on_raise_bind; [unfold event_filter; pres|]. intros _.
  apply keeps_on_raise_bind; [unfold event_filter; pres|]. intros _.
  apply keeps_on_raise_bind; [unfold Checkpoint; pres|]. intros _.
  apply keeps_on_raise_bind; [unfold event_filter; pres|]. intros _.
  apply keeps_on_raise_bind.
  { apply (trainer_run_keeps_file_property (fun fs => f ∉ fs)).
    - intros epoch fs Hfs. rewrite elem_of_write_file.
      pose proof (is_checkpoint_name_ne f epoch Hckpt). tauto.
    - intros epoch fs Hfs. rewrite elem_of_remove_file. tauto. }
  intros _ w Hw err w' Hrun. exfalso.
  cbv [bind modify when mret M_ret ret] in Hrun.
  destruct (bool_decide (is_Some (testfile a))); discriminate.
Qed.

(** X11.  The tables of metrics are written when the run completes and only
    then: a run that returns has written the training table, and the test
    table too when a test file is given; a run that raises has created
    neither. *)
Theorem metrics_tables_written_on_completion (a : args) (e : env)
    (files : list string) :
  let res := training a e files in
  (res.1 = Ok tt →
   "metrics_train.csv" ∈ w_files res.2 ∧
   (is_Some (testfile a) → "metrics_test.csv" ∈ w_files res.2)) ∧
  (∀ err, res.1 = Raise err →
   ("metrics_train.csv" ∉ files → "metrics_train.csv" ∉ w_files res.2) ∧
   ("metrics_test.csv" ∉ files → "metrics_test.csv" ∉ w_files res.2)).
Proof.
  intros res. subst res. split.
  - intros Hok.
    assert (Hh : hoare (fun _ => True) (training_body a e)
                   (fun _ w =>
                      "metrics_train.csv" ∈ w_files w ∧
                      (is_Some (testfile a) →
                       "metrics_test.csv" ∈ w_files w))).
    { unfold training_body. cbv [mbind M_bind].
      do 10 (eapply hoare_bind; [apply hoare_any|intros ?]).
      intros w _ [] w' Hrun. cbv [bind modify when mret M_ret ret] in Hrun.
      destruct (bool_decide_reflect (is_Some (testfile a))) as [Hs|Hs];
        injection Hrun as <-; cbn; rewrite !elem_of_write_file; tauto. }
    unfold training in *.
    destruct (training_body a e (initial_world a e files)) as [r w'] eqn:E.
    cbn in Hok. subst r. exact (Hh _ I _ _ E).
  - intros err Herr. unfold training in *.
    destruct (training_body a e (initial_world a e files)) as [r w'] eqn:E.
    cbn in Herr. subst r. cbn. split; intros Habs.
    + refine (training_keeps_absent_on_raise "metrics_train.csv" a e _ _
                (initial_world a e files) Habs err w' E);
        [discriminate|reflexivity].
    + refine (training_keeps_absent_on_raise "metrics_test.csv" a e _ _
                (initial_world a e files) Habs err w' E);
        [discriminate|reflexivity].
Qed.

(** X12.  The log file is the first thing a run creates, and nothing
    removes it: it is in the output directory after every run, whether
    the run returns or raises. *)
Theorem log_file_always_created (a : args) (e : env) (files : list string) :
  "training.log" ∈ w_files (training a e files).2.
Proof.
  assert (Hrest : ∀ (rest : M unit),
            preserves (fun w => "training.log" ∈ w_files w) rest →
            ∀ w, "training.log"
                 ∈ w_files
                     (bind (modify (fun w =>
                        set_files (write_file "training.log" (w_files w)) w))
                        (fun _ => rest) w).2).
  { intros rest Hp w. cbv [bind modify]. apply Hp. cbn.
    rewrite elem_of_write_file. auto. }
  unfold training, training_body. cbv [mbind M_bind]. apply Hrest.
  apply preserves_bind; [pres|]. intros _.
  apply preserves_bind; [pres|]. intros _.
  apply preserves_bind; [pres|]. intros _.
  apply preserves_bind; [pres|]. intros _.
  apply preserves_bind; [unfold event_filter; pres|]. intros _.
  apply preserves_bind; [unfold event_filter; pres|]. intros _.
  apply preserves_bind; [unfold Checkpoint; pres|]. intros _.
  apply preserves_bind; [unfold event_filter; pres|]. intros _.
  apply preserves_bind.
  { apply (trainer_run_keeps_file_property (fun fs => "training.log" ∈ fs)).
    - intros epoch fs Hfs. rewrite elem_of_write_file. auto.
    - intros epoch fs Hfs. rewrite elem_of_remove_file. split; [|exact Hfs].
      apply is_checkpoint_name_ne. reflexivity. }
  intros _. pres; rewrite elem_of_write_file; auto.
Qed.

(** *** What the record holds, and what the handlers and steps leave *)

(** X13.  The record of an evaluation step pairs the predictions with the
    targets of the same batch: [labels] (and [affinities]) are the
    batch's own tensors, and [pose_log] (and [affinities_pred]) are the
    network's outputs for the batch's grids, computed in evaluation mode
    without gradient tracking whatever the mode was before the step. *)
Theorem evaluation_record_contents
    (model : module) (affinity : bool) (batch : value) (w w' : world)
    (output : gmap string value) :
  evaluation_step model affinity batch w = (Ok output, w') →
  if affinity then
    ∃ grids labels affinities pose_log affinities_pred,
      elements batch = Ok [grids; labels; affinities] ∧
      elements (model (w_params w) false false grids)
        = Ok [pose_log; affinities_pred] ∧
      output !! "pose_log" = Some (VTensor pose_log) ∧
      output !! "affinities_pred" = Some (VTensor affinities_pred) ∧
      output !! "labels" = Some (VTensor labels) ∧
      output !! "affinities" = Some (VTensor affinities)
  else
    ∃ grids labels,
      elements batch = Ok [grids; labels] ∧
      output !! "pose_log" = Some (model (w_params w) false false grids) ∧
      output !! "labels" = Some (VTensor labels).
Proof.
  destruct affinity; run_m; cbn; split_elements; try discriminate;
    intros [= <- <-].
  - do 5 eexists. repeat split; first [reflexivity | eassumption].
  - do 2 eexists. repeat split; first [reflexivity | eassumption].
Qed.

(** X14.  The handlers of a completed epoch -- the two cadence checks and
    the checkpoint -- leave the parameters, the gradients and the
    optimizer buffers as the epoch's last training step left them,
    whether they return or raise. *)
Theorem epoch_handlers_leave_model (a : args) (model : module)
    (metrics : list (string * metric)) (affinity : bool)
    (train : list value) (test : option (list value)) (w : world) :
  let w' :=
    (epoch_completed a (_setup_evaluator model metrics affinity) train test
       w).2 in
  w_params w' = w_params w ∧ w_grads w' = w_grads w ∧
  w_optbuf w' = w_optbuf w ∧ w_epoch w' = w_epoch w.
Proof.
  assert (Hp : preserves
    (fun w' => w_params w' = w_params w ∧ w_grads w' = w_grads w ∧
               w_optbuf w' = w_optbuf w ∧ w_epoch w' = w_epoch w)
    (epoch_completed a (_setup_evaluator model metrics affinity) train test)).
  { unfold epoch_completed, checkpoint_call, when. unfold_program.
    unfold outstreams.
    destruct affinity, (silent a), test; pres. }
  apply Hp. repeat split; reflexivity.
Qed.

(** X15.  A training step, of either variant and on any batch, touches the
    model and the optimizer only: the learning rates, the scheduler, the
    gradient-tracking mode, the metrics, the histories, the files, the
    checkpoint list and the epoch counter are as they were, whether the
    step returns or raises. *)
Theorem train_step_leaves_run_state
    (model : module) (pose_loss : loss_module)
    (affinity_loss : option loss_module) (clip : Q) (batch : value)
    (w : world) :
  let w' := (_setup_trainer model pose_loss affinity_loss clip batch w).2 in
  w_lrs w' = w_lrs w ∧ w_sched w' = w_sched w ∧
  w_grad_enabled w' = w_grad_enabled w ∧
  w_accs w' = w_accs w ∧ w_metrics w' = w_metrics w ∧
  w_metrics_train w' = w_metrics_train w ∧
  w_metrics_test w' = w_metrics_test w ∧
  w_files w' = w_files w ∧ w_saved w' = w_saved w ∧
  w_epoch w' = w_epoch w.
Proof.
  destruct affinity_loss; run_m; cbn; split_elements; split_tracking;
    repeat split; first [reflexivity | cbn; congruence].
Qed.

(** X16.  The single-group assertion comes after the scheduler step: on an
    optimizer that does not have exactly one parameter group, with the
    pose loss among the metrics, the update of the rate raises
    AssertionError with the scheduler already stepped -- the rates and the
    scheduler are those the step has left -- and with no rate logged. *)
Theorem assertion_follows_scheduler_step (a : args) (mts : gmap string Q)
    (pose : Q) (w : world) :
  lr_dynamic a = true →
  mts !! "Loss (pose)" = Some pose →
  length (w_lrs w) ≠ 1%nat →
  ∃ loss,
    monitored_loss mts w = (Ok loss, w) ∧
    (update_lr a mts w).1 = Raise AssertionError ∧
    (w_sched (update_lr a mts w).2, w_lrs (update_lr a mts w).2)
    = plateau_step (torch_scheduler a) loss (w_sched w, w_lrs w) ∧
    w_trace (update_lr a mts w).2 = w_trace w ++ [EvSchedulerStep loss].
Proof.
  intros Hdyn Hpose Hlen.
  destruct (monitored_loss_defined mts pose w Hpose) as [loss Hm].
  exists loss. split; [exact Hm|].
  unfold update_lr. rewrite Hdyn. unfold torch_scheduler_step.
  run_m. rewrite Hm. cbn.
  pose proof (plateau_step_length (torch_scheduler a) loss
                (w_sched w, w_lrs w)) as Hl.
  destruct (plateau_step _ _ _) as [s lrs]. cbn in *.
  destruct (Nat.eqb_spec (length lrs) 1) as [Heq|Hne]; [lia|].
  cbn. repeat split; reflexivity.
Qed.

End Properties.

(** ** The statements at work on the small instance *)

Section Witnesses.
#[local] Existing Instances toy_tensors toy_autograd.

Lemma dual_task_loss_witness :
  ∃ grids labels affinities pose_log affinities_pred,
    elements toy_dual_batch = Ok [grids; labels; affinities] ∧
    elements (run_model toy_dual_args toy_env (w_params toy_dual_world) true
                (w_grad_enabled toy_dual_world) grids)
      = Ok [pose_log; affinities_pred] ∧
    3 # 1
    = item
        (tensor_add
           (NLLLoss toy_env (VTensor pose_log) (VTensor labels))
           (AffinityLoss toy_env (delta_affinity_loss toy_dual_args)
              (penalty_affinity_loss toy_dual_args)
              (pseudo_huber_affinity_loss toy_dual_args)
              (scale_affinity_loss toy_dual_args)
              (VTensor affinities_pred) (VTensor affinities))).
Proof.
  apply (dual_task_loss_is_unweighted_sum toy_dual_args toy_env 1%Z
           toy_dual_batch toy_dual_world
           (run_trainer toy_dual_args toy_env toy_dual_batch toy_dual_world).2 (3 # 1)).
  - reflexivity.
  - vm_compute. reflexivity.
Defined.

Lemma evaluation_record_fields_witness :
  (∃ output w',
     ev_process (run_evaluator toy_args toy_env) toy_pose_batch toy_world
     = (Ok output, w') ∧
     dom output = {["pose_log"; "labels"]}) ∧
  (∃ output w',
     ev_process (run_evaluator toy_dual_args toy_env) toy_dual_batch
       toy_dual_world
     = (Ok output, w') ∧
     dom output = {["pose_log"; "affinities_pred"; "labels"; "affinities"]}).
Proof.
  split.
  - destruct (evaluation_record_fields toy_args toy_env toy_pose_batch
                toy_world) as [Hfields Hreturns].
    destruct (proj2 Hreturns) as (output & w' & Hrun);
      [vm_compute; reflexivity|].
    exists output, w'. split; [exact Hrun|].
    apply (Hfields output w' Hrun). reflexivity.
  - destruct (evaluation_record_fields toy_dual_args toy_env toy_dual_batch
                toy_dual_world) as [Hfields Hreturns].
    destruct (proj2 Hreturns) as (output & w' & Hrun);
      [vm_compute; reflexivity|].
    exists output, w'. split; [exact Hrun|].
    apply (Hfields output w' Hrun). exists 1%Z. reflexivity.
Defined.


Lemma preexisting_checkpoint_witness :
  (∃ err, (training toy_args toy_env ["checkpoint_3.pt"]).1 = Raise err) ∧
  w_epoch (training toy_args toy_env ["checkpoint_3.pt"]).2 = 0%nat.
Proof.
  refine ((fun H => conj (proj1 H) (proj1 (proj2 H)))
    (preexisting_checkpoint_fails_at_startup toy_args toy_env
       ["checkpoint_3.pt"] _)).
  exists "checkpoint_3.pt". split; [left | vm_compute; reflexivity].
Defined.

Lemma checkpoint_retention_witness :
  checkpoints_of (w_files (training toy_args toy_env ["old.txt"]).2)
  = (fun i => checkpoint_name (i * 2)) <$> seq 2 2 ∧
  length (checkpoints_of (w_files (training toy_args toy_env ["old.txt"]).2))
  = 2%nat.
Proof.
  apply (checkpoint_retention toy_args toy_env ["old.txt"]
           (training toy_args toy_env ["old.txt"]).2).
  - vm_compute. reflexivity.
  - vm_compute. lia.
Defined.

Lemma evaluation_passes_witness :
  let ev := run_evaluator toy_args toy_env in
  let data := l_batches (run_train_loader toy_args toy_env) in
  (evaluator_run ev data toy_world).1
  = (evaluator_run ev data toy_stale_world).1 ∧
  w_metrics (evaluator_run ev data toy_world).2
  = w_metrics (evaluator_run ev data toy_stale_world).2.
Proof.
  apply (evaluation_passes_agree (run_model toy_args toy_env)
           (setup_metrics toy_env (affinity_mode toy_args) (roc_auc toy_args))
           (affinity_mode toy_args)
           (l_batches (run_train_loader toy_args toy_env))
           toy_world toy_stale_world).
  reflexivity.
Defined.

Lemma monitored_loss_witness :
  monitored_loss toy_pose_metrics toy_world = (Ok (3 # 1), toy_world).
Proof.
  refine (proj1 (monitored_loss_tolerates_missing_affinity toy_args
                   toy_pose_metrics (3 # 1) toy_world _)).
  vm_compute. reflexivity.
Defined.

Lemma rising_loss_witness :
  (feed (torch_scheduler toy_args) [1 # 1; 2 # 1; 3 # 1; 4 # 1]
     ({| p_best := None; p_num_bad := 0 |}, [1 # 100])).2 = [1 # 100].
Proof.
  apply (rising_loss_never_reduces_rate toy_args
           [1 # 1; 2 # 1; 3 # 1; 4 # 1] [1 # 100]).
  vm_compute. reflexivity.
Defined.

(** The same rising losses under the comparison a loss calls for: with a
    patience of one the rate is reduced at the third check. *)
Example rising_loss_mode_min :
  (feed {| pc_mode := ModeMin; pc_factor := 1 # 10; pc_patience := 1;
           pc_min_lr := 1 # 100000 |}
     [1 # 1; 2 # 1; 3 # 1; 4 # 1]
     ({| p_best := None; p_num_bad := 0 |}, [1 # 100])).2 = [1 # 1000].
Proof. vm_compute. reflexivity. Qed.

(** A loss that falls at every check has the rate reduced by the scheduler
    of the run, at the third check. *)
Example falling_loss_mode_max :
  (feed (torch_scheduler toy_args) [4 # 1; 3 # 1; 2 # 1; 1 # 1]
     ({| p_best := None; p_num_bad := 0 |}, [1 # 100])).2 = [1 # 1000].
Proof. vm_compute. reflexivity. Qed.


(** The engine started by hand on an optimizer with two parameter groups,
    which no run builds: without adaptive-rate mode the handlers make no
    check, and three epochs of training complete. *)
Example multi_group_run_completes :
  length (w_lrs toy_two_groups) = 2%nat ∧
  (trainer_run (run_trainer toy_static_args toy_env)
     (epoch_completed toy_static_args (run_evaluator toy_static_args toy_env)
        (l_batches (run_train_loader toy_static_args toy_env)) None)
     (l_batches (run_train_loader toy_static_args toy_env))
     (iterations toy_static_args) toy_two_groups).1 = Ok tt ∧
  w_epoch
    (trainer_run (run_trainer toy_static_args toy_env)
       (epoch_completed toy_static_args
          (run_evaluator toy_static_args toy_env)
          (l_batches (run_train_loader toy_static_args toy_env)) None)
       (l_batches (run_train_loader toy_static_args toy_env))
       (iterations toy_static_args) toy_two_groups).2 = 3%nat.
Proof. vm_compute. repeat split; reflexivity. Qed.

(** Under adaptive-rate mode the same optimizer is refused at the first
    cadence check, after the first epoch of training. *)
Example multi_group_adaptive_run_aborts :
  (trainer_run (run_trainer toy_args toy_env)
     (epoch_completed toy_args (run_evaluator toy_args toy_env)
        (l_batches (run_train_loader toy_args toy_env)) None)
     (l_batches (run_train_loader toy_args toy_env))
     (iterations toy_args) toy_two_groups).1 = Raise AssertionError ∧
  w_epoch
    (trainer_run (run_trainer toy_args toy_env)
       (epoch_completed toy_args (run_evaluator toy_args toy_env)
          (l_batches (run_train_loader toy_args toy_env)) None)
       (l_batches (run_train_loader toy_args toy_env))
       (iterations toy_args) toy_two_groups).2 = 1%nat.
Proof. vm_compute. split; reflexivity. Qed.

(** The artifacts the run of seven epochs leaves, with a cadence of two
    epochs and two snapshots kept. *)
Example checkpoint_retention_files :
  w_files (training toy_args toy_env ["old.txt"]).2
  = ["old.txt"; "training.log"; "checkpoint_4.pt"; "checkpoint_6.pt";
     "metrics_train.csv"].
Proof. vm_compute. reflexivity. Qed.

Lemma pose_only_loss_witness :
  ∃ grids labels,
    elements toy_pose_batch = Ok [grids; labels] ∧
    1 # 1 = item (toy_loss (toy_pose_net (w_params toy_world) true
                              (w_grad_enabled toy_world) grids)
                    (VTensor labels)).
Proof.
  apply (pose_only_loss toy_pose_net toy_loss 10 toy_pose_batch toy_world
           (_setup_trainer toy_pose_net toy_loss None 10 toy_pose_batch
              toy_world).2 (1 # 1)).
  vm_compute. reflexivity.
Defined.

Lemma train_step_wrong_arity_witness :
  (_setup_trainer toy_pose_net toy_loss None 10 toy_dual_batch toy_world).1
  = Raise ValueError.
Proof.
  refine (proj1 (train_step_wrong_arity toy_pose_net toy_loss None 10
                   toy_dual_batch [2; 1; 5]%Z toy_world _ _)).
  - reflexivity.
  - vm_compute. lia.
Defined.

Lemma evaluation_step_wrong_arity_witness :
  (evaluation_step toy_dual_net true toy_pose_batch toy_world).1
  = Raise ValueError.
Proof.
  refine (proj1 (evaluation_step_wrong_arity toy_dual_net true
                   toy_pose_batch [2; 1]%Z toy_world _ _)).
  - reflexivity.
  - vm_compute. lia.
Defined.

Lemma update_lr_missing_pose_loss_witness :
  update_lr toy_args toy_affinity_metrics toy_world
  = (Raise KeyError, toy_world).
Proof.
  apply (update_lr_missing_pose_loss toy_args toy_affinity_metrics toy_world).
  - reflexivity.
  - vm_compute. reflexivity.
Defined.

Lemma training_history_row_witness :
  w_metrics_train
    (log_training_results toy_static_args
       (run_evaluator toy_static_args toy_env)
       (l_batches (run_train_loader toy_static_args toy_env)) toy_world).2
    !! "Loss (pose)"
  = Some (default [] (w_metrics_train toy_world !! "Loss (pose)") ++ [5 # 1]).
Proof.
  refine (proj1 (training_history_row toy_static_args
                   (run_model toy_static_args toy_env)
                   (setup_metrics toy_env (affinity_mode toy_static_args)
                      (roc_auc toy_static_args))
                   (affinity_mode toy_static_args)
                   (l_batches (run_train_loader toy_static_args toy_env))
                   toy_world _ _) "Loss (pose)" (5 # 1) _ _).
  - vm_compute. reflexivity.
  - discriminate.
  - vm_compute. reflexivity.
Defined.

Lemma test_history_row_witness :
  w_metrics_test
    (log_test_results toy_static_args
       (run_evaluator toy_static_args toy_env)
       (l_batches (run_train_loader toy_static_args toy_env)) toy_world).2
    !! "Loss (pose)"
  = Some (default [] (w_metrics_test toy_world !! "Loss (pose)") ++ [5 # 1]).
Proof.
  refine (proj1 (test_history_row toy_static_args
                   (run_model toy_static_args toy_env)
                   (setup_metrics toy_env (affinity_mode toy_static_args)
                      (roc_auc toy_static_args))
                   (affinity_mode toy_static_args)
                   (l_batches (run_train_loader toy_static_args toy_env))
                   toy_world _ _) "Loss (pose)" (5 # 1) _ _).
  - vm_compute. reflexivity.
  - discriminate.
  - vm_compute. reflexivity.
Defined.

Lemma static_rate_run_witness :
  w_lrs (training toy_static_args toy_env []).2 = [1 # 100].
Proof.
  apply (static_rate_run toy_static_args toy_env []
           (training toy_static_args toy_env []).2).
  - reflexivity.
  - vm_compute. reflexivity.
Defined.

Lemma mismatched_dimensions_witness :
  (training toy_test_args toy_mismatch_env []).1 = Raise AssertionError.
Proof.
  refine (proj1 (mismatched_dimensions_fail_at_startup toy_test_args
                   toy_mismatch_env [] "test.types" _ _)).
  - reflexivity.
  - vm_compute. discriminate.
Defined.

Lemma update_lr_prints_new_rate_witness :
  ∃ loss lr',
    (update_lr toy_args toy_pose_metrics toy_one_group).1 = Ok tt ∧
    w_lrs (update_lr toy_args toy_pose_metrics toy_one_group).2 = [lr'] ∧
    w_trace (update_lr toy_args toy_pose_metrics toy_one_group).2
    = w_trace toy_one_group ++ EvSchedulerStep loss
        :: ((fun _ => EvPrintLR lr') <$> outstreams toy_args).
Proof.
  apply (update_lr_prints_new_rate toy_args toy_pose_metrics (3 # 1)
           (1 # 100) toy_one_group).
  - reflexivity.
  - vm_compute. reflexivity.
  - reflexivity.
Defined.

Lemma evaluation_record_contents_witness :
  ∃ grids labels affinities pose_log affinities_pred,
    elements toy_dual_batch = Ok [grids; labels; affinities] ∧
    elements (toy_dual_net (w_params toy_dual_world) false false grids)
      = Ok [pose_log; affinities_pred] ∧
    toy_record !! "pose_log" = Some (VTensor pose_log) ∧
    toy_record !! "affinities_pred" = Some (VTensor affinities_pred) ∧
    toy_record !! "labels" = Some (VTensor labels) ∧
    toy_record !! "affinities" = Some (VTensor affinities).
Proof.
  apply (evaluation_record_contents toy_dual_net true toy_dual_batch
           toy_dual_world
           (evaluation_step toy_dual_net true toy_dual_batch
              toy_dual_world).2 toy_record).
  vm_compute. reflexivity.
Defined.

Lemma assertion_follows_scheduler_step_witness :
  ∃ loss,
    monitored_loss toy_pose_metrics toy_two_groups
    = (Ok loss, toy_two_groups) ∧
    (update_lr toy_args toy_pose_metrics toy_two_groups).1
    = Raise AssertionError ∧
    (w_sched (update_lr toy_args toy_pose_metrics toy_two_groups).2,
     w_lrs (update_lr toy_args toy_pose_metrics toy_two_groups).2)
    = plateau_step (torch_scheduler toy_args) loss
        (w_sched toy_two_groups, w_lrs toy_two_groups) ∧
    w_trace (update_lr toy_args toy_pose_metrics toy_two_groups).2
    = w_trace toy_two_groups ++ [EvSchedulerStep loss].
Proof.
  apply (assertion_follows_scheduler_step toy_args toy_pose_metrics (3 # 1)
           toy_two_groups).
  - reflexivity.
  - vm_compute. reflexivity.
  - vm_compute. lia.
Defined.

End Witnesses.
